(** * weppy.validators.inside: presence/absence validators

    A shallow embedding of [weppy/validators/inside.py] (the validators
    [inRange], [inSet], [DBValidator], [inDB] and [notInDB]) together with
    the properties its specification states about them.

    Python values are a small universe of built-in values.  What the
    language decides by dynamic dispatch ([str], the ordering operators) is
    an interface, [PyRuntime], with CPython 3's behaviour as an instance;
    what the application supplies (the translation hook, the store) is a
    parameter or is modelled from the specification, and says so. *)

From Stdlib Require Import List String Ascii ZArith Bool Lia.
From Stdlib Require Import DecimalString.
Import ListNotations.
Local Open Scope string_scope.
Local Open Scope Z_scope.
Set Warnings "-register-all".

(** ** Python values *)

Inductive pyval : Type :=
| PNone
| PBool (b : bool)
| PInt (z : Z)
| PStr (s : string)
| PList (l : list pyval)
| PTuple (l : list pyval).

(** The integer a value of [integer_types] stands for; [bool] is a
    subclass of [int], so [True] counts as [1] and [False] as [0]. *)
Definition int_value (v : pyval) : option Z :=
  match v with
  | PInt z => Some z
  | PBool b => Some (if b then 1 else 0)
  | _ => None
  end.

(** [isinstance(v, (tuple, list))] *)
Definition is_sequence (v : pyval) : bool :=
  match v with PList _ | PTuple _ => true | _ => false end.

(** [isinstance(v, list)] *)
Definition is_list (v : pyval) : bool :=
  match v with PList _ => true | _ => false end.

(** [v is None] *)
Definition is_none (v : pyval) : bool :=
  match v with PNone => true | _ => false end.

(** Truth value of [v], as [if v:] tests it. *)
Definition truthy (v : pyval) : bool :=
  match v with
  | PNone => false
  | PBool b => b
  | PInt z => negb (z =? 0)
  | PStr s => negb (s =? "")%string
  | PList l | PTuple l => match l with [] => false | _ => true end
  end.

(** [a == b] on built-in values. *)
Fixpoint py_eq (a b : pyval) : bool :=
  let fix all2 (l1 l2 : list pyval) : bool :=
    match l1, l2 with
    | [], [] => true
    | x :: xs, y :: ys => py_eq x y && all2 xs ys
    | _, _ => false
    end in
  match a, b with
  | PNone, PNone => true
  | PStr s, PStr t => (s =? t)%string
  | PList l1, PList l2 => all2 l1 l2
  | PTuple l1, PTuple l2 => all2 l1 l2
  | _, _ =>
      match int_value a, int_value b with
      | Some x, Some y => x =? y
      | _, _ => false
      end
  end.

(** [v in l] for a list [l] *)
Definition py_in (v : pyval) (l : list pyval) : bool := existsb (py_eq v) l.

(** A [dict], in insertion order; lookup compares keys with [==]. *)
Definition pydict : Type := list (pyval * pyval).

Fixpoint dict_getitem (d : pydict) (k : pyval) : option pyval :=
  match d with
  | [] => None
  | (k', v) :: d' => if py_eq k' k then Some v else dict_getitem d' k
  end.

(** The four ordering operators. *)
Inductive cmpop : Type := OpGe | OpGt | OpLe | OpLt.

(** ** What the interpreter decides

    [py_str v] is [str(v)]; [py_compare op a b] is [a op b], [None] when
    the operands are not ordered and the operator raises [TypeError]. *)
Class PyRuntime : Type := {
  py_str : pyval -> string;
  py_compare : cmpop -> pyval -> pyval -> option bool
}.

(** The translation hook [translate] of [validators/helpers.py], a
    collaborator of this module: a function from messages to messages. *)
Class I18n : Type := { translate : string -> string }.

(** No translator installed: the hook is the identity. *)
Definition untranslated : I18n := {| translate := fun s => s |}.

(** ** CPython 3 on this universe *)

Definition eval_cmp (op : cmpop) (c : comparison) : bool :=
  match op, c with
  | OpGe, Lt => false | OpGe, _ => true
  | OpGt, Gt => true | OpGt, _ => false
  | OpLe, Gt => false | OpLe, _ => true
  | OpLt, Lt => true | OpLt, _ => false
  end.

(** Sequences are ordered by their first differing items, or by length
    when one is a prefix of the other. *)
Fixpoint cpython_compare (op : cmpop) (a b : pyval) : option bool :=
  let fix lex (l1 l2 : list pyval) : option bool :=
    match l1, l2 with
    | [], [] => Some (eval_cmp op Eq)
    | [], _ :: _ => Some (eval_cmp op Lt)
    | _ :: _, [] => Some (eval_cmp op Gt)
    | x :: xs, y :: ys =>
        if py_eq x y then lex xs ys else cpython_compare op x y
    end in
  match a, b with
  | PStr s, PStr t => Some (eval_cmp op (String.compare s t))
  | PList l1, PList l2 => lex l1 l2
  | PTuple l1, PTuple l2 => lex l1 l2
  | _, _ =>
      match int_value a, int_value b with
      | Some x, Some y => Some (eval_cmp op (x ?= y))
      | _, _ => None
      end
  end.

Definition hex_digit (n : N) : ascii :=
  ascii_of_N (if (n <? 10)%N then 48 + n else 87 + n)%N.

(** One character of [repr] of a string delimited by [quote]. *)
Definition repr_char (quote c : ascii) : string :=
  let n := N_of_ascii c in
  if (Ascii.eqb c quote || Ascii.eqb c "\")%bool then String "\" (String c "")
  else if (n =? 9)%N then "\t"
  else if (n =? 10)%N then "\n"
  else if (n =? 13)%N then "\r"
  else if ((n <? 32) || (126 <? n))%N%bool then
    String "\" (String "x" (String (hex_digit (n / 16)) (String (hex_digit (n mod 16)) "")))
  else String c "".

Fixpoint has_char (c : ascii) (s : string) : bool :=
  match s with
  | EmptyString => false
  | String c' s' => Ascii.eqb c c' || has_char c s'
  end.

Fixpoint repr_chars (quote : ascii) (s : string) : string :=
  match s with
  | EmptyString => ""
  | String c s' => repr_char quote c ++ repr_chars quote s'
  end.

(** [repr] of a string: single quotes, unless it holds one and no double
    quote. *)
Definition repr_string (s : string) : string :=
  let dquote : ascii := ascii_of_N 34 in
  let quote : ascii :=
    if (has_char "'" s && negb (has_char dquote s))%bool then dquote else "'"%char in
  String quote (repr_chars quote s ++ String quote "").

Definition str_int (z : Z) : string := NilZero.string_of_int (Z.to_int z).

Definition str_bool (b : bool) : string := if b then "True" else "False".

Fixpoint cpython_repr (v : pyval) : string :=
  match v with
  | PNone => "None"
  | PBool b => str_bool b
  | PInt z => str_int z
  | PStr s => repr_string s
  | PList l => "[" ++ String.concat ", " (map cpython_repr l) ++ "]"
  | PTuple l =>
      match l with
      | [x] => "(" ++ cpython_repr x ++ ",)"
      | _ => "(" ++ String.concat ", " (map cpython_repr l) ++ ")"
      end
  end.

Definition cpython_str (v : pyval) : string :=
  match v with
  | PStr s => s
  | _ => cpython_repr v
  end.

Definition CPython : PyRuntime :=
  {| py_str := cpython_str; py_compare := cpython_compare |}.


(** ** Raising code: the option monad *)

Definition raise {A : Type} : option A := None.

Definition obind {A B : Type} (c : option A) (k : A -> option B) : option B :=
  match c with
  | Some a => k a
  | None => None
  end.

Declare Scope py_scope.
Delimit Scope py_scope with py.
Notation "x <- c ;; k" := (obind c (fun x => k))
  (at level 61, c at next level, right associativity) : py_scope.

(** [a and b], [b] evaluated only when [a] holds. *)
Definition py_and (a : option bool) (b : option bool) : option bool :=
  obind a (fun x => if x then b else Some false).

(** [a or b], [b] evaluated only when [a] does not hold. *)
Definition py_or (a : bool) (b : option bool) : option bool :=
  if a then Some true else b.

(** ** String formatting: [template % dict]

    The template is scanned left to right.  [%%] gives a percent sign and
    [%(key)s] gives [str(d[key])]; parentheses inside a key nest.  A missing
    key ([KeyError]) and a template that stops inside a directive
    ([ValueError]) raise.  Directives other than [%(key)s] and [%%] are not
    part of this model, which answers [None] on them too. *)
Inductive fmt_state : Type :=
| Text
| Percent
| Key (depth : nat) (k : string)
| Conversion (k : string).

Section Formatting.
Context {R : PyRuntime}.

Fixpoint py_format_from (st : fmt_state) (template : string) (d : pydict)
  : option string :=
  match template with
  | EmptyString => match st with Text => Some "" | _ => raise end
  | String c rest =>
      match st with
      | Text =>
          if Ascii.eqb c "%" then py_format_from Percent rest d
          else option_map (String c) (py_format_from Text rest d)
      | Percent =>
          if Ascii.eqb c "%" then option_map (String c) (py_format_from Text rest d)
          else if Ascii.eqb c "(" then py_format_from (Key 0 "") rest d
          else raise
      | Key depth k =>
          if Ascii.eqb c ")" then
            match depth with
            | O => py_format_from (Conversion k) rest d
            | S n => py_format_from (Key n (k ++ String c "")) rest d
            end
          else if Ascii.eqb c "(" then py_format_from (Key (S depth) (k ++ String c "")) rest d
          else py_format_from (Key depth (k ++ String c "")) rest d
      | Conversion k =>
          if Ascii.eqb c "s" then
            match dict_getitem d (PStr k) with
            | Some v => option_map (append (py_str v)) (py_format_from Text rest d)
            | None => raise
            end
          else raise
      end
  end.

Definition py_format (template : string) (d : pydict) : option string :=
  py_format_from Text template d.
End Formatting.


Local Open Scope py_scope.

(** ** [class Validator] *)

(** Modelled from the spec: [Validator.__init__] of [validators/basic.py],
    which every constructor here calls first.  A validator carries its
    configured message or, when none is given (no message, or an empty
    one), the default message of the class. *)
Definition Validator__init__ (message : option string) : string :=
  match message with
  | Some m => if (m =? "")%string then "Invalid value" else m
  | None => "Invalid value"
  end.

(** ** [class inRange(Validator)] *)

Module inRange.
Section Validator.
Context {R : PyRuntime} {T : I18n}.

(** What a callable bound reads when it is called: the state of the
    world at the time of the check. *)
Context {World : Type}.

(** A bound is a value (maybe [None]) or a callable without arguments. *)
Inductive bound : Type :=
| Literal (v : pyval)
| Callable (f : World -> pyval).

(** The attributes of an instance.  [message] may hold [None], the case
    [_range_error] tests for; the constructor does not leave it so. *)
Record t : Type := mk {
  message : option string;
  minimum : bound;
  maximum : bound;
  inc : bool * bool
}.

Definition __init__ (minimum maximum : option bound)
    (include : option (bool * bool)) (message : option string) : t :=
  {| message := Some (Validator__init__ message);
     minimum := match minimum with Some b => b | None => Literal PNone end;
     maximum := match maximum with Some b => b | None => Literal PNone end;
     inc := match include with Some i => i | None => (true, false) end |}.

Definition _gt (val1 val2 : pyval) (eq : bool) : option bool :=
  if eq then py_compare OpGe val1 val2 else py_compare OpGt val1 val2.

Definition _lt (val1 val2 : pyval) (eq : bool) : option bool :=
  if eq then py_compare OpLe val1 val2 else py_compare OpLt val1 val2.

(** [b() if callable(b) else b] *)
Definition resolve (w : World) (b : bound) : pyval :=
  match b with
  | Literal v => v
  | Callable f => f w
  end.

Definition default_message (minimum maximum : pyval) : string :=
  "Enter a value" ++
  (if negb (is_none minimum) && negb (is_none maximum) then
     " between %(min)s and %(max)s"
   else if negb (is_none minimum) then
     " greater than or equal to %(min)s"
   else if negb (is_none maximum) then
     " less than or equal to %(max)s"
   else "").

Definition _range_error (message : option string) (minimum maximum : pyval)
  : option string :=
  let message :=
    match message with
    | None => default_message minimum maximum
    | Some m => m
    end in
  (* if isinstance(maximum, integer_types): maximum -= 1 *)
  let maximum :=
    match int_value maximum with
    | Some z => PInt (z - 1)
    | None => maximum
    end in
  py_format (translate message) [(PStr "min", minimum); (PStr "max", maximum)].

Definition __call__ (self : t) (w : World) (value : pyval)
  : option (pyval * option string) :=
  let minimum := resolve w (minimum self) in
  let maximum := resolve w (maximum self) in
  ok <- py_and (py_or (is_none minimum) (_gt value minimum (fst (inc self))))
               (py_or (is_none maximum) (_lt value maximum (snd (inc self)))) ;;
  if ok then Some (value, None)
  else
    error <- _range_error (message self) minimum maximum ;;
    Some (value, Some (translate error)).


(** The bound checks in the words of the specification: the minimum
    check is [value >= minimum] when inclusive, else [value > minimum];
    the maximum check is [value <= maximum] when inclusive, else
    [value < maximum].  A check succeeds when the comparison answers
    true. *)
Definition minimum_check (incMin : bool) (value minimum : pyval) : option bool :=
  py_compare (if incMin then OpGe else OpGt) value minimum.

Definition maximum_check (incMax : bool) (value maximum : pyval) : option bool :=
  py_compare (if incMax then OpLe else OpLt) value maximum.

Definition minimum_succeeds (self : t) (w : World) (value : pyval) : Prop :=
  resolve w (minimum self) <> PNone ->
  minimum_check (fst (inc self)) value (resolve w (minimum self)) = Some true.

Definition maximum_succeeds (self : t) (w : World) (value : pyval) : Prop :=
  resolve w (maximum self) <> PNone ->
  maximum_check (snd (inc self)) value (resolve w (maximum self)) = Some true.

(** A check that runs and answers false. *)
Definition minimum_fails (self : t) (w : World) (value : pyval) : Prop :=
  resolve w (minimum self) <> PNone /\
  minimum_check (fst (inc self)) value (resolve w (minimum self)) = Some false.

Definition maximum_fails (self : t) (w : World) (value : pyval) : Prop :=
  resolve w (maximum self) <> PNone /\
  maximum_check (snd (inc self)) value (resolve w (maximum self)) = Some false.

(** The second [return] of [__call__]: the value with the translated
    range error. *)
Definition failure (self : t) (w : World) (value : pyval)
  : option (pyval * option string) :=
  option_map (fun error => (value, Some (translate error)))
    (_range_error (message self) (resolve w (minimum self))
                  (resolve w (maximum self))).
End Validator.
Arguments bound : clear implicits.
Arguments t : clear implicits.
End inRange.

(** ** [class inSet(Validator)] *)

Module inSet.
(** [multiple] is a flag, or a [(min, max)] pair bounding the number of
    selected values. *)
Inductive multiple_t : Type :=
| Flag (b : bool)
| Bounds (lo hi : Z).

(** Truth value of [self.multiple]: a pair is not empty, so it is true. *)
Definition enabled (m : multiple_t) : bool :=
  match m with
  | Flag b => b
  | Bounds _ _ => true
  end.

(** [message] is what the base class [Validator] leaves on the instance:
    the configured message or its default. *)
Record t : Type := mk {
  message : string;
  multiple : multiple_t;
  theset : list string;
  labels : option (list string);
  zero : option string;
  sort : bool
}.

(** Which [return] of [__call__] is taken, by its line in the source. *)
Inductive exit : Type :=
| Return111   (* return ([], None) *)
| Return112   (* return value, translate(self.message) *)
| Return116   (* return values, translate(self.message) *)
| Return117   (* return values, None *)
| Return118.  (* return value, None *)

(** [for item, label in ...] on one element *)
Definition unpack2 (v : pyval) : option (pyval * pyval) :=
  match v with
  | PList [a; b] | PTuple [a; b] => Some (a, b)
  | PStr (String a (String b EmptyString)) =>
      Some (PStr (String a ""), PStr (String b ""))
  | _ => raise
  end.

Fixpoint unpack_all (l : list pyval) : option (list (pyval * pyval)) :=
  match l with
  | [] => Some []
  | v :: l' =>
      p <- unpack2 v ;;
      ps <- unpack_all l' ;;
      Some (p :: ps)
  end.

(** The elements of a list or tuple. *)
Definition items (v : pyval) : list pyval :=
  match v with
  | PList l | PTuple l => l
  | _ => []
  end.

Definition nonempty {A : Type} (l : list A) : bool :=
  match l with [] => false | _ => true end.

Section Validator.
Context {R : PyRuntime} {T : I18n}.

(** [theset] is the list or tuple given by the caller. *)
Definition __init__ (theset : list pyval) (labels : option (list string))
    (multiple : multiple_t) (zero : option string) (sort : bool)
    (message : string) : option t :=
  let pairs :=
    match theset with
    | first :: _ => is_sequence first && (List.length (items first) =? 2)%nat
    | [] => false
    end in
  if pairs then
    ps <- unpack_all theset ;;
    Some {| message := message; multiple := multiple;
            theset := map (fun p => py_str (fst p)) ps;
            labels := Some (map (fun p => py_str (snd p)) ps);
            zero := zero; sort := sort |}
  else
    Some {| message := message; multiple := multiple;
            theset := map py_str theset;
            labels := labels;
            zero := zero; sort := sort |}.

(** The first [if] of [__call__]: [values]. *)
Definition normalize (self : t) (value : pyval) : pyval :=
  if enabled (multiple self) then
    if negb (truthy value) then PList []
    else if is_sequence value then value
    else PList [value]
  else PList [value].

Definition failures (self : t) (values : pyval) : list pyval :=
  filter (fun x => negb (existsb (String.eqb (py_str x)) (theset self)))
         (items values).

(** [not self.multiple[0] <= len(values) < self.multiple[1]], asked only
    of a pair. *)
Definition count_out_of_bounds (m : multiple_t) (values : pyval) : bool :=
  match m with
  | Bounds lo hi =>
      let n := Z.of_nat (List.length (items values)) in
      negb ((lo <=? n) && (n <? hi))
  | Flag _ => false
  end.

Definition call_at (self : t) (value : pyval)
  : exit * (pyval * option string) :=
  let values := normalize self value in
  let failures := failures self values in
  if nonempty failures && nonempty (theset self) then
    if enabled (multiple self) && (is_none value || py_eq value (PStr "")) then
      (Return111, (PList [], None))
    else (Return112, (value, Some (translate (message self))))
  else if enabled (multiple self) then
    if count_out_of_bounds (multiple self) values then
      (Return116, (values, Some (translate (message self))))
    else (Return117, (values, None))
  else (Return118, (value, None)).

Definition __call__ (self : t) (value : pyval) : pyval * option string :=
  snd (call_at self value).
End Validator.

(** The test of [__init__] for a list of [(item, label)] pairs. *)
Definition pairs_given (theset : list pyval) : bool :=
  match theset with
  | first :: _ => is_sequence first && (List.length (items first) =? 2)%nat
  | [] => false
  end.

(** [[(k, self.labels[i]) for (i, k) in enumerate(self.theset)]], raising
    [IndexError] where the labels run out. *)
Fixpoint with_labels (theset labels : list string) : option (list (string * string)) :=
  match theset with
  | [] => Some []
  | k :: theset' =>
      match labels with
      | [] => raise
      | l :: labels' => option_map (cons (k, l)) (with_labels theset' labels')
      end
  end.

(** The first step of [options]: each allowed item with its label, or
    with itself where there are no labels. *)
Definition labelled_items (self : t) : option (list (string * string)) :=
  match labels self with
  | None | Some [] => Some (map (fun k => (k, k)) (theset self))
  | Some labels => with_labels (theset self) labels
  end.

(** [options(zero)].  [items.sort(options_sorter)] is the argument
    [sort_items], which may raise: the comparison [options_sorter]
    belongs to [validators/helpers.py], and the [sort] of a Python 3
    list takes no positional argument. *)
Definition options
    (sort_items : list (string * string) -> option (list (string * string)))
    (self : t) (zero : bool) : option (list (string * string)) :=
  (items <- labelled_items self ;;
   items <- (if sort self then sort_items items else Some items) ;;
   match inSet.zero self with
   | Some z =>
       if zero && negb (enabled (multiple self)) then Some (("", z) :: items)
       else Some items
   | None => Some items
   end)%py.

(** [items.sort(options_sorter)] under Python 3: [TypeError]. *)
Definition python3_sort (items : list (string * string))
  : option (list (string * string)) := raise.
End inSet.


(** ** The store *)

(** Modelled from the spec: the store, table, field and query-set that the
    record validators consult; the database layer is a collaborator, not a
    part of this module.  The interface is the one the specification
    lists: [store[tableId]], [table[fieldId]], [store(table)],
    [querySet.where(predicate)], [querySet.select(orderby, limit)],
    [querySet.count()]; rows expose their fields by name. *)
Module dal.
Record Row : Type := {
  id : pyval;
  columns : list (string * pyval)
}.

Fixpoint assoc (name : string) (l : list (string * pyval)) : option pyval :=
  match l with
  | [] => None
  | (n, v) :: l' => if (n =? name)%string then Some v else assoc name l'
  end.

(** [row[name]] *)
Definition Row_getitem (r : Row) (name : string) : option pyval :=
  if (name =? "id")%string then Some (id r) else assoc name (columns r).

Record Table : Type := {
  _tablename : string;
  fields : list string;
  rows : list Row;
  _format : option string
}.

Record Field : Type := {
  of_table : string;
  name : string
}.

(** The store: its tables. *)
Definition DAL : Type := list Table.

(** A query-set: the rows it selects, in the order of the store. *)
Definition DBSet : Type := list Row.

(** How [select] is asked to arrange the rows. *)
Definition Ordering : Type := list Row -> list Row.

(** [field == value] *)
Inductive Query : Type :=
| Equals (f : Field) (v : pyval).

(** [db[tablename]]; raises where the store has no such table. *)
Definition DAL_getitem (db : DAL) (tablename : string) : option Table :=
  find (fun t => (_tablename t =? tablename)%string) db.

(** [table[fieldname]]; raises where the table has no such field. *)
Definition Table_getitem (t : Table) (fieldname : string) : option Field :=
  if ((fieldname =? "id")%string || existsb (String.eqb fieldname) (fields t))%bool
  then Some {| of_table := _tablename t; name := fieldname |}
  else raise.

(** [db(table)]: all rows of the table. *)
Definition DAL_call (db : DAL) (t : Table) : DBSet := rows t.

Definition satisfies (q : Query) (r : Row) : bool :=
  match q with
  | Equals f v =>
      match Row_getitem r (name f) with
      | Some x => py_eq x v
      | None => false
      end
  end.

Definition where_ (s : DBSet) (q : Query) : DBSet := filter (satisfies q) s.

(** [s.select(orderby=..., limitby=(lo, hi))] *)
Definition select (s : DBSet) (orderby : option Ordering)
    (limitby : option (nat * nat)) : list Row :=
  let arranged := match orderby with Some o => o s | None => s end in
  match limitby with
  | Some (lo, hi) => firstn (hi - lo) (skipn lo arranged)
  | None => arranged
  end.

(** [rows.first()] *)
Definition first (l : list Row) : option Row := hd_error l.

Definition count (s : DBSet) : nat := List.length s.

(** [rows.as_list()]: each row as a [dict] from field name to value, the
    shape [inDB.options] reads with [r['id']] and [r[self.label_field]]. *)
Definition as_dict (r : Row) : pydict :=
  (PStr "id", id r) :: map (fun c => (PStr (fst c), snd c)) (columns r).

Definition as_list (l : list Row) : list pydict := map as_dict l.
End dal.

(** ** Methods of an object: state and exceptions

    A method takes the instance and gives its result, [None] when it
    raises, with the instance as the method leaves it. *)

Definition M (S A : Type) : Type := S -> option A * S.

Definition ret {S A : Type} (a : A) : M S A := fun s => (Some a, s).

Definition bind {S A B : Type} (c : M S A) (k : A -> M S B) : M S B :=
  fun s =>
    match c s with
    | (Some a, s') => k a s'
    | (None, s') => (None, s')
    end.

(** Reading an attribute. *)
Definition attr {S A : Type} (f : S -> A) : M S A := fun s => (Some (f s), s).

(** An expression that may raise and leaves the instance alone. *)
Definition lift {S A : Type} (o : option A) : M S A := fun s => (o, s).

Declare Scope method_scope.
Delimit Scope method_scope with method.
Notation "x <- c ;; k" := (bind c (fun x => k))
  (at level 61, c at next level, right associativity) : method_scope.

(** Modelled from the spec: the decorator [cachedprop], which lives in
    [weppy/utils.py] and not in this module.  The specification asks for lazy
    memoized property semantics: the getter runs on the first access and
    its value is kept on the instance; later accesses give the kept value
    and do not run the getter.  [read] and [write] are the slot of the
    property in the instance. *)
Definition cachedprop {S A : Type} (read : S -> option A) (write : A -> S -> S)
    (fget : M S A) : M S A :=
  fun s =>
    match read s with
    | Some v => (Some v, s)
    | None =>
        match fget s with
        | (Some v, s') => (Some v, write v s')
        | (None, s') => (None, s')
        end
    end.

Local Open Scope method_scope.

(** ** [class DBValidator(Validator)] *)

Module DBValidator.
Import dal.

(** The three cached properties. *)
Inductive accessor : Type := table_prop | dbset_prop | field_prop.

Definition accessor_eq_dec (a b : accessor) : {a = b} + {a <> b}.
Proof. decide equality. Defined.

(** The attributes of an instance: those [__init__] sets, then the
    entries the cached properties leave in the instance's [__dict__].
    [computed] is not an attribute: it is the history of the getter
    bodies that have returned, latest first, kept to count them. *)
Record t : Type := mk {
  message : string;
  db : DAL;
  tablename : string;
  fieldname : string;
  _dbset : option (DAL -> DBSet);
  dict_table : option Table;
  dict_dbset : option DBSet;
  dict_field : option Field;
  computed : list accessor
}.

Definition __init__ (db : DAL) (tablename : string) (fieldname : option string)
    (dbset : option (DAL -> DBSet)) (message : string) : t :=
  {| message := message; db := db; tablename := tablename;
     fieldname := match fieldname with Some f => f | None => "id" end;
     _dbset := dbset;
     dict_table := None; dict_dbset := None; dict_field := None;
     computed := [] |}.

Definition set_table (v : Table) (s : t) : t :=
  mk (message s) (db s) (tablename s) (fieldname s) (_dbset s)
     (Some v) (dict_dbset s) (dict_field s) (computed s).

Definition set_dbset (v : DBSet) (s : t) : t :=
  mk (message s) (db s) (tablename s) (fieldname s) (_dbset s)
     (dict_table s) (Some v) (dict_field s) (computed s).

Definition set_field (v : Field) (s : t) : t :=
  mk (message s) (db s) (tablename s) (fieldname s) (_dbset s)
     (dict_table s) (dict_dbset s) (Some v) (computed s).

(** A getter body that returns [v] enters the history. *)
Definition returned {A : Type} (a : accessor) (v : A) : M t A :=
  fun s =>
    (Some v,
     mk (message s) (db s) (tablename s) (fieldname s) (_dbset s)
        (dict_table s) (dict_dbset s) (dict_field s) (a :: computed s)).

Definition table : M t Table :=
  cachedprop dict_table set_table
    (db <- attr db ;;
     tablename <- attr tablename ;;
     v <- lift (DAL_getitem db tablename) ;;
     returned table_prop v).

Definition dbset : M t DBSet :=
  cachedprop dict_dbset set_dbset
    (factory <- attr _dbset ;;
     match factory with
     | Some f =>
         db <- attr db ;;
         returned dbset_prop (f db)
     | None =>
         db <- attr db ;;
         table <- table ;;
         returned dbset_prop (DAL_call db table)
     end).

Definition field : M t Field :=
  cachedprop dict_field set_field
    (table <- table ;;
     fieldname <- attr fieldname ;;
     v <- lift (Table_getitem table fieldname) ;;
     returned field_prop v).

(** *** A lifetime of an instance

    What happens to an instance after [__init__]: its cached properties
    are read and its constructor inputs are assigned anew, in any
    order. *)
Inductive action : Type :=
| Access (a : accessor)
| Assign_db (v : DAL)
| Assign_tablename (v : string)
| Assign_fieldname (v : string)
| Assign__dbset (v : option (DAL -> DBSet)).

(** What an access gives. *)
Inductive value : Type :=
| Table_value (v : Table)
| DBSet_value (v : DBSet)
| Field_value (v : Field).

Definition access (a : accessor) : M t value :=
  match a with
  | table_prop => v <- table ;; ret (Table_value v)
  | dbset_prop => v <- dbset ;; ret (DBSet_value v)
  | field_prop => v <- field ;; ret (Field_value v)
  end.

(** One action: the instance afterwards and, for an access that
    returns, the property read and its value. *)
Definition step (s : t) (a : action) : t * list (accessor * value) :=
  match a with
  | Access p =>
      match access p s with
      | (Some v, s') => (s', [(p, v)])
      | (None, s') => (s', [])
      end
  | Assign_db v =>
      (mk (message s) v (tablename s) (fieldname s) (_dbset s)
          (dict_table s) (dict_dbset s) (dict_field s) (computed s), [])
  | Assign_tablename v =>
      (mk (message s) (db s) v (fieldname s) (_dbset s)
          (dict_table s) (dict_dbset s) (dict_field s) (computed s), [])
  | Assign_fieldname v =>
      (mk (message s) (db s) (tablename s) v (_dbset s)
          (dict_table s) (dict_dbset s) (dict_field s) (computed s), [])
  | Assign__dbset v =>
      (mk (message s) (db s) (tablename s) (fieldname s) v
          (dict_table s) (dict_dbset s) (dict_field s) (computed s), [])
  end.

(** A sequence of actions: the final instance and everything that was
    read, in order. *)
Fixpoint lifetime (s : t) (l : list action) : t * list (accessor * value) :=
  match l with
  | [] => (s, [])
  | a :: l' =>
      let (s1, seen1) := step s a in
      let (s2, seen2) := lifetime s1 l' in
      (s2, (seen1 ++ seen2)%list)
  end.

(** How many times the getter of [a] has returned. *)
Definition times_computed (a : accessor) (s : t) : nat :=
  count_occ accessor_eq_dec (computed s) a.

(** The entry of a property in the instance's [__dict__], if any. *)
Definition slot (a : accessor) (s : t) : option value :=
  match a with
  | table_prop => option_map Table_value (dict_table s)
  | dbset_prop => option_map DBSet_value (dict_dbset s)
  | field_prop => option_map Field_value (dict_field s)
  end.

(** A getter has returned once for each entry there is, and not at all
    for a property without an entry. *)
Definition consistent (s : t) : Prop :=
  forall a, times_computed a s = match slot a s with Some _ => 1%nat | None => 0%nat end.

(** The entries of [s] are still those of [s']. *)
Definition kept (s s' : t) : Prop :=
  forall a v, slot a s = Some v -> slot a s' = Some v.
End DBValidator.

(** The request-scoped object [current] of [weppy.globals]: its
    attributes, by name. *)
Definition namespace : Type := list (string * pyval).

(** [getattr(obj, name, default)] *)
Definition getattr (obj : namespace) (name : string) (default : pyval) : pyval :=
  match dal.assoc name obj with
  | Some v => v
  | None => default
  end.

(** ** [class notInDB(DBValidator)] *)

Module notInDB.
Import dal.
Section Validator.
Context {T : I18n}.

Definition __call__ (current : namespace) (value : pyval)
  : M DBValidator.t (pyval * option string) :=
  dbset <- DBValidator.dbset ;;
  field <- DBValidator.field ;;
  let row := first (select (where_ dbset (Equals field value)) None (Some (0, 1)%nat)) in
  match row with
  | Some row =>
      let record_id := getattr current "_dbvalidation_record_id_" PNone in
      if negb (py_eq (id row) record_id) then
        message <- attr DBValidator.message ;;
        ret (value, Some (translate message))
      else ret (value, None)
  | None => ret (value, None)
  end.
End Validator.
End notInDB.

(** ** [class inDB(DBValidator)] *)

Module inDB.
Import dal.

(** [orderby] is absent, a value, or a function of the table. *)
Inductive orderby_t : Type :=
| NoOrder
| OrderValue (o : Ordering)
| OrderCallable (f : Table -> Ordering).

(** The instance of the base class, then the attributes [inDB] adds and
    the entry its cached property [sorting] leaves in [__dict__]. *)
Record t : Type := mk {
  base : DBValidator.t;
  label_field : option string;
  multiple : bool;
  orderby : orderby_t;
  dict_sorting : option (option Ordering)
}.

Definition __init__ (db : DAL) (tablename : string) (fieldname : option string)
    (dbset : option (DAL -> DBSet)) (label_field : option string)
    (multiple : bool) (orderby : orderby_t) (message : string) : t :=
  {| base := DBValidator.__init__ db tablename fieldname dbset message;
     label_field := label_field;
     multiple := multiple;
     orderby := orderby;
     dict_sorting := None |}.

(** A method of the base class, run on the instance. *)
Definition inherited {A : Type} (c : M DBValidator.t A) : M t A :=
  fun s =>
    let (r, b) := c (base s) in
    (r, mk b (label_field s) (multiple s) (orderby s) (dict_sorting s)).

Definition set_sorting (v : option Ordering) (s : t) : t :=
  mk (base s) (label_field s) (multiple s) (orderby s) (Some v).

Definition sorting : M t (option Ordering) :=
  cachedprop dict_sorting set_sorting
    (orderby <- attr orderby ;;
     match orderby with
     | OrderCallable f =>
         table <- inherited DBValidator.table ;;
         ret (Some (f table))
     | _ => ret None
     end).

Definition _get_rows : M t (list pydict) :=
  dbset <- inherited DBValidator.dbset ;;
  sorting <- sorting ;;
  ret (as_list (select dbset sorting None)).

(** [[f(r) for r in l]], raising as soon as [f] does. *)
Fixpoint comprehension {A B : Type} (f : A -> option B) (l : list A)
  : option (list B) :=
  match l with
  | [] => Some []
  | x :: l' =>
      match f x with
      | Some y => option_map (cons y) (comprehension f l')
      | None => raise
      end
  end.

Section Validator.
Context {R : PyRuntime} {T : I18n}.

Definition options : M t (list (pyval * pyval)) :=
  records <- _get_rows ;;
  label_field <- attr label_field ;;
  match label_field with
  | Some label =>
      lift (comprehension
              (fun r =>
                 match dict_getitem r (PStr "id"), dict_getitem r (PStr label) with
                 | Some i, Some l => Some (i, PStr (py_str l))
                 | _, _ => raise
                 end) records)
  | None =>
      db <- inherited (attr DBValidator.db) ;;
      tablename <- inherited (attr DBValidator.tablename) ;;
      table <- lift (DAL_getitem db tablename) ;;
      match _format table with
      | Some fmt =>
          if negb (fmt =? "")%string then
            lift (comprehension
                    (fun r =>
                       match dict_getitem r (PStr "id"), py_format fmt r with
                       | Some i, Some l => Some (i, PStr l)
                       | _, _ => raise
                       end) records)
          else
            lift (comprehension
                    (fun r => option_map (fun i => (i, i)) (dict_getitem r (PStr "id")))
                    records)
      | None =>
          lift (comprehension
                  (fun r => option_map (fun i => (i, i)) (dict_getitem r (PStr "id")))
                  records)
      end
  end.

Definition __call__ (value : pyval) : M t (pyval * option string) :=
  multiple <- attr multiple ;;
  if multiple then
    let values := if is_list value then value else PList [value] in
    rows <- _get_rows ;;
    records <- lift (comprehension (fun i => dict_getitem i (PInt 0)) rows) ;;
    if negb (inSet.nonempty
               (filter (fun v => negb (py_in v records)) (inSet.items values)))
    then ret (values, None)
    else
      message <- inherited (attr DBValidator.message) ;;
      ret (value, Some (translate message))
  else
    dbset <- inherited DBValidator.dbset ;;
    field <- inherited DBValidator.field ;;
    if negb (count (where_ dbset (Equals field value)) =? 0)%nat
    then ret (value, None)
    else
      message <- inherited (attr DBValidator.message) ;;
      ret (value, Some (translate message)).

(** The multiple mode in the words of the specification: the check
    passes when every value of the input list is the id of some fetched
    row. *)
Definition every_value_is_a_row_id (values : pyval) (fetched : list Row) : bool :=
  forallb (fun v => existsb (fun r => py_eq v (id r)) fetched) (inSet.items values).
End Validator.
End inDB.

(** ** Instances used in the examples *)

Module Examples.
Definition inSet_of (theset : list string) (multiple : inSet.multiple_t) : inSet.t :=
  {| inSet.message := "Invalid value"; inSet.multiple := multiple;
     inSet.theset := theset; inSet.labels := None; inSet.zero := None;
     inSet.sort := false |}.

(** [inSet(["a", "b"], multiple=True)] *)
Definition ab_many : inSet.t := inSet_of ["a"; "b"] (inSet.Flag true).

(** [inSet(["a", "b"], multiple=(1, 3))] *)
Definition ab_one_or_two : inSet.t := inSet_of ["a"; "b"] (inSet.Bounds 1 3).

(** [inSet(["a", "b", "c", "d"], multiple=(1, 3))] *)
Definition abcd_one_or_two : inSet.t :=
  inSet_of ["a"; "b"; "c"; "d"] (inSet.Bounds 1 3).

(** [inSet(["a", "b", "c"])] *)
Definition abc : inSet.t := inSet_of ["a"; "b"; "c"] (inSet.Flag false).

(** [inSet(["a", "b"], multiple=(1, 1))] *)
Definition ab_exactly_one : inSet.t := inSet_of ["a"; "b"] (inSet.Bounds 1 1).

(** [inSet(["a", "b", "c"], zero="Choose")] *)
Definition abc_or_nothing : inSet.t :=
  {| inSet.message := "Invalid value"; inSet.multiple := inSet.Flag false;
     inSet.theset := ["a"; "b"; "c"]; inSet.labels := None;
     inSet.zero := Some "Choose"; inSet.sort := false |}.

(** [inRange(1, 10)] *)
Definition one_to_ten : inRange.t unit :=
  inRange.__init__ (Some (inRange.Literal (PInt 1)))
    (Some (inRange.Literal (PInt 10))) None None.

(** [inRange(1, 10, message="%(x)s")]: the message asks for a key that
    [_range_error] does not supply. *)
Definition one_to_ten_bad_message : inRange.t unit :=
  inRange.__init__ (Some (inRange.Literal (PInt 1)))
    (Some (inRange.Literal (PInt 10))) None (Some "%(x)s").

(** [inRange(None, lambda: today, include=(True, True),
    message="Not in the future")], where the world is today's date as a
    number. *)
Definition not_in_the_future : inRange.t Z :=
  inRange.__init__ None (Some (inRange.Callable (fun today => PInt today)))
    (Some (true, true)) (Some "Not in the future").

(** A store with one table, [things], of two rows. *)
Definition things : dal.Table :=
  {| dal._tablename := "things";
     dal.fields := ["name"];
     dal.rows := [ {| dal.id := PInt 1; dal.columns := [("name", PStr "hammer")] |};
                   {| dal.id := PInt 2; dal.columns := [("name", PStr "nail")] |} ];
     dal._format := None |}.

Definition store : dal.DAL := [things].

(** [notInDB(db, "things", "name")] *)
Definition unique_name : DBValidator.t :=
  DBValidator.__init__ store "things" (Some "name") None "Already taken".

(** [inDB(db, "things", multiple=True)] *)
Definition some_things : inDB.t :=
  inDB.__init__ store "things" None None None true inDB.NoOrder "Invalid value".

(** The request is editing record 2. *)
Definition editing_2 : namespace := [("_dbvalidation_record_id_", PInt 2)].

(** [inDB(db, "things")] *)
Definition one_of_things : inDB.t :=
  inDB.__init__ store "things" None None None false inDB.NoOrder "Invalid value".

(** [inDB(db, "things", "name")] *)
Definition a_thing_by_name : inDB.t :=
  inDB.__init__ store "things" (Some "name") None None false inDB.NoOrder
    "Invalid value".

(** [inDB(db, "things", label_field="name")] *)
Definition labelled_things : inDB.t :=
  inDB.__init__ store "things" None None (Some "name") false inDB.NoOrder
    "Invalid value".

(** [inDB(db, "things", multiple=True)] on a store whose table is empty. *)
Definition of_no_things : inDB.t :=
  inDB.__init__
    [ {| dal._tablename := "things"; dal.fields := ["name"]; dal.rows := [];
         dal._format := None |} ]
    "things" None None None true inDB.NoOrder "Invalid value".
End Examples.

(** * Properties *)

(** The constructor of [inSet] turns the allowed items into strings. *)
Example inSet_init_abcd :
  inSet.__init__ (R := CPython) [PStr "a"; PStr "b"; PStr "c"; PStr "d"] None
    (inSet.Bounds 1 3) None false "Invalid value" = Some Examples.abcd_one_or_two.
Proof. reflexivity. Qed.

Example inSet_init_pairs :
  option_map inSet.theset
    (inSet.__init__ (R := CPython)
       [PTuple [PInt 1; PStr "one"]; PTuple [PInt 2; PStr "two"]] None
       (inSet.Flag false) None false "Invalid value") = Some ["1"; "2"].
Proof. reflexivity. Qed.

(** ** [inSet] *)

Section InSetProperties.
Context {R : PyRuntime} {T : I18n}.
Import inSet.

Lemma nonempty_false {A : Type} (l : list A) : nonempty l = false <-> l = [].
Proof. destruct l; simpl; split; congruence. Qed.

Lemma nonempty_true {A : Type} (l : list A) : nonempty l = true <-> l <> [].
Proof. destruct l; simpl; split; congruence. Qed.

(** Membership in the allowed set, as the comprehension tests it. *)
Lemma allowed_In (self : t) (x : pyval) :
  existsb (String.eqb (py_str x)) (theset self) = true <-> In (py_str x) (theset self).
Proof.
  rewrite existsb_exists. split.
  - intros [y [Hy Heq]]. apply String.eqb_eq in Heq. now subst.
  - intros H. exists (py_str x). split; [assumption | apply String.eqb_refl].
Qed.

Lemma failures_nil (self : t) (values : pyval) :
  failures self values = [] <->
  forall x, In x (items values) -> In (py_str x) (theset self).
Proof.
  unfold failures. split.
  - intros H x Hx. apply allowed_In.
    destruct (existsb (String.eqb (py_str x)) (theset self)) eqn:E; [reflexivity|].
    assert (Hin : In x (filter (fun x => negb (existsb (String.eqb (py_str x)) (theset self)))
                           (items values))).
    { apply filter_In. split; [assumption | now rewrite E]. }
    rewrite H in Hin. destruct Hin.
  - intros H. induction (items values) as [|x l IH]; simpl; [reflexivity|].
    assert (Hx : existsb (String.eqb (py_str x)) (theset self) = true).
    { apply allowed_In, H. now left. }
    rewrite Hx. simpl. apply IH. intros y Hy. apply H. now right.
Qed.

(** A value that is not true normalizes to the empty list in multiple
    mode, and the empty list has no failing elements. *)
Lemma normalize_falsy (self : t) (value : pyval) :
  enabled (multiple self) = true -> truthy value = false ->
  normalize self value = PList [].
Proof. intros Hm Hv. unfold normalize. now rewrite Hm, Hv. Qed.

Lemma falsy_of_override (value : pyval) :
  (is_none value || py_eq value (PStr ""))%bool = true -> truthy value = false.
Proof.
  destruct value as [ | b | z | s | l | l]; simpl; try discriminate; try reflexivity.
  intros H. now rewrite H.
Qed.

(** C9. In single mode the check returns the value unchanged and without
    error when its string form is in the allowed set, and also whenever
    the allowed set is empty; it returns the value with an error (the
    translated message) exactly when the allowed set is not empty and
    the string form of the value is not in it. *)
Theorem inSet_single_mode (self : t) (v : pyval) :
  enabled (multiple self) = false ->
  (In (py_str v) (theset self) -> __call__ self v = (v, None)) /\
  (theset self = [] -> __call__ self v = (v, None)) /\
  (theset self <> [] /\ ~ In (py_str v) (theset self) ->
   __call__ self v = (v, Some (translate (message self)))) /\
  ((exists error, __call__ self v = (v, Some error)) <->
   theset self <> [] /\ ~ In (py_str v) (theset self)).
Proof.
  intros Hsingle.
  assert (Hcall : __call__ self v =
                  if (negb (existsb (String.eqb (py_str v)) (theset self))
                      && nonempty (theset self))%bool
                  then (v, Some (translate (message self))) else (v, None)).
  { unfold __call__, call_at, failures, normalize. rewrite Hsingle. simpl.
    destruct (existsb (String.eqb (py_str v)) (theset self)); simpl; [reflexivity|].
    destruct (nonempty (theset self)); reflexivity. }
  rewrite Hcall.
  destruct (existsb (String.eqb (py_str v)) (theset self)) eqn:Hin; simpl.
  - apply allowed_In in Hin.
    split; [intros _; reflexivity|]. split; [intros _; reflexivity|]. split.
    + intros [_ Hn]. contradiction.
    + split.
      * intros [e He]. discriminate.
      * intros [_ Hn]. contradiction.
  - assert (Hnot : ~ In (py_str v) (theset self)).
    { intros H. apply allowed_In in H. congruence. }
    destruct (nonempty (theset self)) eqn:Hne.
    + apply nonempty_true in Hne.
      split; [intros; contradiction|]. split; [intros; contradiction|].
      split; [intros _; reflexivity|].
      split; [intros _; split; assumption|].
      intros _. exists (translate (message self)). reflexivity.
    + apply nonempty_false in Hne.
      split; [intros _; reflexivity|]. split; [intros _; reflexivity|]. split.
      * intros [Hn _]. contradiction.
      * split.
        -- intros [e He]. discriminate.
        -- intros [Hn _]. contradiction.
Qed.

(** C8. With [multiple] a [(min, max)] pair, when the string form of
    every element of the normalized input is in the allowed set but the
    number of elements does not satisfy [min <= count < max], the check
    returns the normalized values with an error, the translated
    message. *)
Theorem inSet_count_out_of_bounds (self : t) (v : pyval) (lo hi : Z) :
  multiple self = Bounds lo hi ->
  (forall x, In x (items (normalize self v)) -> In (py_str x) (theset self)) ->
  ~ (lo <= Z.of_nat (List.length (items (normalize self v))) < hi) ->
  __call__ self v = (normalize self v, Some (translate (message self))).
Proof.
  intros Hm Hall Hcount.
  apply failures_nil in Hall.
  unfold __call__, call_at. rewrite Hall, Hm. simpl.
  destruct (lo <=? Z.of_nat (List.length (items (normalize self v)))) eqn:Hlo;
    destruct (Z.of_nat (List.length (items (normalize self v))) <? hi) eqn:Hhi;
    simpl; try reflexivity.
  exfalso. apply Hcount. lia.
Qed.

(** C4. With [multiple] the flag [True], a value that is empty or null
    (any value that is not true: [None], the empty string, ...) gives
    the empty list and no error, whatever the allowed set holds, so also
    when it is not empty. *)
Theorem inSet_empty_selection (self : t) (v : pyval) :
  multiple self = Flag true ->
  truthy v = false ->
  __call__ self v = (PList [], None).
Proof.
  intros Hm Hv.
  unfold __call__, call_at.
  rewrite normalize_falsy by (try rewrite Hm; auto).
  rewrite Hm. reflexivity.
Qed.

(** C3, as amended. With [multiple] a [(min, max)] pair and [min >= 1],
    an empty or null value is normalized to the empty list and the
    bound on the count is applied to it: the check leaves through the
    [return] of the count test, with the empty list and the translated
    message. *)
Theorem inSet_empty_selection_is_counted (self : t) (v : pyval) (lo hi : Z) :
  multiple self = Bounds lo hi ->
  1 <= lo ->
  truthy v = false ->
  call_at self v = (Return116, (PList [], Some (translate (message self)))).
Proof.
  intros Hm Hlo Hv.
  unfold call_at.
  rewrite normalize_falsy by (try rewrite Hm; auto).
  rewrite Hm. simpl.
  destruct (lo <=? 0) eqn:E; [lia | reflexivity].
Qed.

(** C10. The [return ([], None)] inside the failure branch is never
    taken: in multiple mode a value with failing elements is neither
    [None] nor the empty string, since a value that is not true is
    normalized to the empty list, which has no failing elements. *)
Theorem inSet_override_unreachable (self : t) (v : pyval) :
  fst (call_at self v) <> Return111 /\
  (enabled (multiple self) = true ->
   failures self (normalize self v) <> [] ->
   v <> PNone /\ v <> PStr "" /\ (is_none v || py_eq v (PStr ""))%bool = false).
Proof.
  assert (Hkey : enabled (multiple self) = true ->
                 failures self (normalize self v) <> [] ->
                 (is_none v || py_eq v (PStr ""))%bool = false).
  { intros Hm Hf.
    destruct (is_none v || py_eq v (PStr ""))%bool eqn:E; [|reflexivity].
    exfalso. apply Hf. apply falsy_of_override in E.
    rewrite normalize_falsy by assumption. reflexivity. }
  split.
  - unfold call_at.
    destruct (nonempty (failures self (normalize self v))) eqn:Hf; simpl.
    + destruct (nonempty (theset self)); simpl.
      * destruct (enabled (multiple self)) eqn:Hm; simpl; [|discriminate].
        rewrite Hkey; [discriminate | reflexivity | now apply nonempty_true].
      * destruct (enabled (multiple self));
          [destruct (count_out_of_bounds _ _)|]; discriminate.
    + destruct (enabled (multiple self));
        [destruct (count_out_of_bounds _ _)|]; discriminate.
  - intros Hm Hf. specialize (Hkey Hm Hf).
    repeat split; [| | assumption]; intros ->; simpl in Hkey; discriminate.
Qed.
End InSetProperties.

(** [inSet(["a", "b", "c"])] lets ["b"] through unchanged. *)
Lemma inSet_single_mode_witness :
  inSet.enabled (inSet.multiple Examples.abc) = false /\
  inSet.__call__ (R := CPython) (T := untranslated) Examples.abc (PStr "b")
  = (PStr "b", None).
Proof.
  split; [reflexivity|].
  apply (proj1 (inSet_single_mode (R := CPython) (T := untranslated)
                  Examples.abc (PStr "b") eq_refl)).
  simpl. auto.
Defined.

(** ... and turns ["z"] down. *)
Example inSet_abc_rejects_z :
  inSet.__call__ (R := CPython) (T := untranslated) Examples.abc (PStr "z")
  = (PStr "z", Some "Invalid value").
Proof. reflexivity. Qed.

(** Four values, all allowed, where one or two may be selected. *)
Lemma inSet_count_out_of_bounds_witness :
  inSet.multiple Examples.abcd_one_or_two = inSet.Bounds 1 3 /\
  inSet.__call__ (R := CPython) (T := untranslated) Examples.abcd_one_or_two
    (PList [PStr "a"; PStr "b"; PStr "c"; PStr "d"])
  = (PList [PStr "a"; PStr "b"; PStr "c"; PStr "d"], Some "Invalid value").
Proof.
  split; [reflexivity|].
  apply (inSet_count_out_of_bounds (R := CPython) (T := untranslated)
           Examples.abcd_one_or_two
           (PList [PStr "a"; PStr "b"; PStr "c"; PStr "d"]) 1 3 eq_refl).
  - intros x [<-|[<-|[<-|[<-|[]]]]]; simpl; auto.
  - simpl. lia.
Defined.

(** [inSet(["a", "b"], multiple=True)(None)] is [([], None)]. *)
Lemma inSet_empty_selection_witness :
  inSet.multiple Examples.ab_many = inSet.Flag true /\
  truthy PNone = false /\
  inSet.__call__ (R := CPython) (T := untranslated) Examples.ab_many PNone
  = (PList [], None).
Proof.
  split; [reflexivity|]. split; [reflexivity|].
  apply (inSet_empty_selection (R := CPython) (T := untranslated)
           Examples.ab_many PNone eq_refl eq_refl).
Defined.

(** [inSet(["a", "b"], multiple=(1, 3))(None)] is [([], "Invalid value")]. *)
Lemma inSet_empty_selection_is_counted_witness :
  inSet.call_at (R := CPython) (T := untranslated) Examples.ab_one_or_two PNone
  = (inSet.Return116, (PList [], Some "Invalid value")).
Proof.
  apply (inSet_empty_selection_is_counted (R := CPython) (T := untranslated)
           Examples.ab_one_or_two PNone 1 3 eq_refl).
  - lia.
  - reflexivity.
Defined.

(** C3, as stated, fails: with the pair [(1, 3)] the value [None] does not
    come back as [([], None)]; the count test is reached and turns the
    empty selection down. *)
Lemma inSet_empty_selection_not_exempt :
  inSet.__call__ (R := CPython) (T := untranslated) Examples.ab_one_or_two PNone
  <> (PList [], None) /\
  inSet.call_at (R := CPython) (T := untranslated) Examples.ab_one_or_two PNone
  = (inSet.Return116, (PList [], Some "Invalid value")).
Proof. split; [discriminate | reflexivity]. Qed.

(** ** [inRange] *)

Section InRangeProperties.
Context {R : PyRuntime} {T : I18n} {World : Type}.
Import inRange.

Lemma is_none_true (v : pyval) : is_none v = true <-> v = PNone.
Proof. destruct v; simpl; split; congruence. Qed.

Lemma is_none_false (v : pyval) : is_none v = false <-> v <> PNone.
Proof. destruct v; simpl; split; congruence. Qed.

Lemma _gt_minimum_check (value minimum : pyval) (eq : bool) :
  _gt value minimum eq = minimum_check eq value minimum.
Proof. destruct eq; reflexivity. Qed.

Lemma _lt_maximum_check (value maximum : pyval) (eq : bool) :
  _lt value maximum eq = maximum_check eq value maximum.
Proof. destruct eq; reflexivity. Qed.

(** The three outcomes of [__call__]. *)
Lemma call_cases (self : t World) (w : World) (v : pyval) :
  __call__ self w v =
  match py_or (is_none (resolve w (minimum self)))
              (minimum_check (fst (inc self)) v (resolve w (minimum self))) with
  | Some true =>
      match py_or (is_none (resolve w (maximum self)))
                  (maximum_check (snd (inc self)) v (resolve w (maximum self))) with
      | Some true => Some (v, None)
      | Some false => failure self w v
      | None => None
      end
  | Some false => failure self w v
  | None => None
  end.
Proof.
  unfold __call__, failure. rewrite _gt_minimum_check, _lt_maximum_check.
  destruct (py_or (is_none (resolve w (minimum self))) _) as [[|]|]; simpl;
    [destruct (py_or (is_none (resolve w (maximum self))) _) as [[|]|]; simpl | |];
    try reflexivity;
    destruct (_range_error _ _ _); reflexivity.
Qed.

Lemma failure_not_pass (self : t World) (w : World) (v : pyval) :
  failure self w v <> Some (v, None).
Proof. unfold failure. destruct (_range_error _ _ _); simpl; congruence. Qed.

Lemma py_or_succeeds (bound : pyval) (check : option bool) :
  py_or (is_none bound) check = Some true <-> (bound <> PNone -> check = Some true).
Proof.
  unfold py_or. destruct (is_none bound) eqn:E.
  - apply is_none_true in E. split; [intros _ H; contradiction | reflexivity].
  - apply is_none_false in E. split; [intros H _; exact H | intros H; exact (H E)].
Qed.

Lemma py_or_fails (bound : pyval) (check : option bool) :
  py_or (is_none bound) check = Some false <-> (bound <> PNone /\ check = Some false).
Proof.
  unfold py_or. destruct (is_none bound) eqn:E.
  - apply is_none_true in E. split; [discriminate | intros [H _]; contradiction].
  - apply is_none_false in E. split; [intros H; split; assumption | intros [_ H]; exact H].
Qed.



(** A call that returns an error went through the failing [return]. *)
Lemma call_failure (self : t World) (w : World) (v : pyval)
    (r : pyval * option string) :
  __call__ self w v = Some r -> snd r <> None -> failure self w v = Some r.
Proof.
  rewrite call_cases. intros Hcall Herr.
  destruct (py_or (is_none (resolve w (minimum self))) _) as [[|]|];
    [destruct (py_or (is_none (resolve w (maximum self))) _) as [[|]|] | |];
    try discriminate; try assumption.
  injection Hcall as <-. simpl in Herr. contradiction.
Qed.

(** Without a custom message, with a minimum and an integer maximum, the
    range error is the "between" message formatted with the maximum less
    one. *)
Lemma range_error_between (minimum maximum : pyval) (z : Z) :
  minimum <> PNone ->
  int_value maximum = Some z ->
  _range_error None minimum maximum =
  py_format (translate "Enter a value between %(min)s and %(max)s")
    [(PStr "min", minimum); (PStr "max", PInt (z - 1))].
Proof.
  intros Hmin Hmax. unfold _range_error, default_message.
  apply is_none_false in Hmin. rewrite Hmin, Hmax.
  assert (Hnone : is_none maximum = false) by (destruct maximum; simpl in *; congruence).
  rewrite Hnone. reflexivity.
Qed.

Lemma between_message (self : t World) (w : World) (v : pyval) (z : Z)
    (r : pyval * option string) :
  message self = None ->
  resolve w (minimum self) <> PNone ->
  int_value (resolve w (maximum self)) = Some z ->
  __call__ self w v = Some r ->
  snd r <> None ->
  exists text,
    py_format (translate "Enter a value between %(min)s and %(max)s")
      [(PStr "min", resolve w (minimum self)); (PStr "max", PInt (z - 1))]
    = Some text /\
    r = (v, Some (translate text)).
Proof.
  intros Hmsg Hmin Hmax Hcall Herr.
  apply call_failure in Hcall; [|assumption].
  unfold failure in Hcall.
  rewrite Hmsg, (range_error_between _ _ z Hmin Hmax) in Hcall.
  destruct (py_format _ _) as [text|]; [|discriminate].
  exists text. simpl in Hcall. split; congruence.
Qed.
End InRangeProperties.

(** [inRange(1, 10)] on integers: those from 1 to 9 pass, the others
    get the default message of the class. *)
Lemma one_to_ten_on_integers (z : Z) :
  inRange.__call__ (R := CPython) (T := untranslated) Examples.one_to_ten tt (PInt z)
  = Some (PInt z,
          if (1 <=? z) && (z <? 10) then None
          else Some "Invalid value").
Proof.
  unfold inRange.__call__, inRange._gt, inRange._lt. simpl.
  destruct (Z.compare_spec z 1); destruct (Z.compare_spec z 10); simpl;
    destruct (1 <=? z) eqn:E1; destruct (z <? 10) eqn:E2; simpl;
    try reflexivity; lia.
Qed.

(** A validator built without a custom message carries the default
    message, which formats to itself whatever the bounds. *)
Lemma failure_without_custom_message {R : PyRuntime} {World : Type}
    (minimum maximum : option (inRange.bound World)) (include : option (bool * bool))
    (w : World) (v : pyval) :
  inRange.failure (T := untranslated)
    (inRange.__init__ minimum maximum include None) w v
  = Some (v, Some "Invalid value").
Proof. reflexivity. Qed.

(** C5. [_range_error] does build the "between %(min)s and %(max)s"
    message, with the maximum less one, when it is given no message:
    for the bounds 1 and 10 it is "Enter a value between 1 and 9".  But
    [__call__] never gives it [None]: a validator built without a custom
    message carries the default message of the class, and every check it
    turns down comes back with "Invalid value"; so does
    [inRange(1, 10)(20)]. *)
Theorem inRange_generated_message_unused :
  inRange._range_error (R := CPython) (T := untranslated) None (PInt 1) (PInt 10)
  = Some "Enter a value between 1 and 9" /\
  inRange.__call__ (R := CPython) (T := untranslated) Examples.one_to_ten tt (PInt 20)
  = Some (PInt 20, Some "Invalid value") /\
  (forall (R : PyRuntime) (World : Type)
          (minimum maximum : option (inRange.bound World))
          (include : option (bool * bool)) (w : World) (v : pyval)
          (r : pyval * option string),
     inRange.__call__ (T := untranslated)
       (inRange.__init__ minimum maximum include None) w v = Some r ->
     snd r <> None ->
     r = (v, Some "Invalid value")).
Proof.
  split; [reflexivity|]. split; [reflexivity|].
  intros R World minimum maximum include w v r Hcall Herr.
  apply call_failure in Hcall; [|exact Herr].
  rewrite failure_without_custom_message in Hcall. congruence.
Qed.


(** The same validator in 2030 lets the year 2020 through. *)
Example inRange_callable_bound_later :
  inRange.__call__ (R := CPython) (T := untranslated)
    Examples.not_in_the_future 2030 (PInt 2020)
  = Some (PInt 2020, None).
Proof. reflexivity. Qed.


(** Given no message and no translator, [_range_error] always formats
    the message it writes. *)
Lemma default_message_formats {R : PyRuntime} (minimum maximum : pyval) :
  exists error,
    inRange._range_error (T := untranslated) None minimum maximum = Some error.
Proof.
  unfold inRange._range_error, inRange.default_message.
  destruct (is_none minimum); destruct (is_none maximum); simpl;
    destruct (int_value maximum); simpl; eexists; reflexivity.
Qed.

(** A custom message that does not format makes the failing call raise
    instead of returning. *)
Example inRange_bad_message_raises :
  inRange.__call__ (R := CPython) (T := untranslated)
    Examples.one_to_ten_bad_message tt (PInt 20) = None /\
  inRange.__call__ (R := CPython) (T := untranslated)
    Examples.one_to_ten_bad_message tt (PInt 5) = Some (PInt 5, None).
Proof. split; reflexivity. Qed.

(** Operands that Python does not order make the call raise. *)
Example inRange_unordered_raises :
  inRange.__call__ (R := CPython) (T := untranslated)
    Examples.one_to_ten tt (PStr "abc") = None.
Proof. reflexivity. Qed.

(** ** [DBValidator]: the cached properties *)

Section CachedProperties.
Import DBValidator.

Lemma kept_refl (s : t) : kept s s.
Proof. intros a v H. exact H. Qed.

Lemma kept_trans (s1 s2 s3 : t) : kept s1 s2 -> kept s2 s3 -> kept s1 s3.
Proof. intros H12 H23 a v H. apply H23, H12, H. Qed.

Ltac run_method :=
  unfold access, dbset, field, table, cachedprop, bind, attr, lift, returned, ret in *;
  simpl in *.

(** Reading a property keeps the instance consistent, keeps the entries
    it has, and what it gives is the entry of the property afterwards;
    the attributes set by [__init__] stay as they are. *)
Lemma access_sound (a : accessor) (s s' : t) (r : option value) :
  consistent s ->
  access a s = (r, s') ->
  consistent s' /\ kept s s' /\ (forall v, r = Some v -> slot a s' = Some v) /\
  message s' = message s.
Proof.
  intros Hc Hrun.
  pose proof (Hc table_prop) as Ht.
  pose proof (Hc dbset_prop) as Hd.
  pose proof (Hc field_prop) as Hf.
  destruct s as [msg db tn fn factory dt dd df hist].
  unfold consistent, kept, times_computed, slot in *.
  destruct a; run_method;
    repeat (match type of Hrun with
            | context [match ?x with _ => _ end] =>
                match type of x with
                | option _ => destruct x eqn:?
                end
            end; simpl in * );
    injection Hrun as <- <-; simpl;
    (split; [intros []; simpl; rewrite ?Ht, ?Hd, ?Hf; reflexivity|]);
    (split; [intros [] v; simpl; congruence|]);
    (split; [intros v; congruence | reflexivity]).
Qed.

Lemma step_sound (a : action) (s s' : t) (seen : list (accessor * value)) :
  consistent s ->
  step s a = (s', seen) ->
  consistent s' /\ kept s s' /\
  (forall p v, In (p, v) seen -> slot p s' = Some v).
Proof.
  intros Hc Hstep. destruct a as [p | v | v | v | v]; simpl in Hstep.
  - destruct (access p s) as [[v|] s1] eqn:Hrun;
      injection Hstep as <- <-;
      destruct (access_sound p s s1 _ Hc Hrun) as [Hc1 [Hk [Hv _]]];
      (split; [assumption|]); (split; [assumption|]).
    + intros q w [Heq | []]. injection Heq as <- <-. apply Hv. reflexivity.
    + intros q w [].
  - injection Hstep as <- <-.
    split; [exact Hc|]. split; [intros q w H; exact H | intros q w []].
  - injection Hstep as <- <-.
    split; [exact Hc|]. split; [intros q w H; exact H | intros q w []].
  - injection Hstep as <- <-.
    split; [exact Hc|]. split; [intros q w H; exact H | intros q w []].
  - injection Hstep as <- <-.
    split; [exact Hc|]. split; [intros q w H; exact H | intros q w []].
Qed.

Lemma lifetime_sound (l : list action) :
  forall (s s' : t) (seen : list (accessor * value)),
    consistent s ->
    lifetime s l = (s', seen) ->
    consistent s' /\ kept s s' /\
    (forall p v, In (p, v) seen -> slot p s' = Some v).
Proof.
  induction l as [|a l IH]; intros s s' seen Hc Hrun; simpl in Hrun.
  - injection Hrun as <- <-.
    split; [assumption|]. split; [apply kept_refl | intros p v []].
  - destruct (step s a) as [s1 seen1] eqn:Hstep.
    destruct (lifetime s1 l) as [s2 seen2] eqn:Hrest.
    injection Hrun as <- <-.
    destruct (step_sound a s s1 seen1 Hc Hstep) as [Hc1 [Hk1 Hseen1]].
    destruct (IH s1 s2 seen2 Hc1 Hrest) as [Hc2 [Hk2 Hseen2]].
    split; [assumption|]. split; [eapply kept_trans; eassumption|].
    intros p v Hin. apply in_app_or in Hin. destruct Hin as [Hin | Hin].
    + apply Hk2, Hseen1, Hin.
    + apply Hseen2, Hin.
Qed.

Lemma init_consistent (db : dal.DAL) (tablename : string)
    (fieldname : option string) (dbset : option (dal.DAL -> dal.DBSet))
    (message : string) :
  consistent (__init__ db tablename fieldname dbset message).
Proof. intros []; reflexivity. Qed.

(** C7. In the lifetime of an instance, which reads its cached
    properties and assigns its constructor inputs ([db], [tablename],
    [fieldname], [_dbset]) anew in any order, the getter of each of
    [table], [dbset] and [field] returns at most once, and all the reads
    of one property give the same value. *)
Theorem cachedprop_computes_once (db : dal.DAL) (tablename : string)
    (fieldname : option string) (dbset : option (dal.DAL -> dal.DBSet))
    (message : string) (l : list action) :
  let run := lifetime (__init__ db tablename fieldname dbset message) l in
  (forall a, (times_computed a (fst run) <= 1)%nat) /\
  (forall a v w, In (a, v) (snd run) -> In (a, w) (snd run) -> v = w).
Proof.
  intros run.
  destruct run as [s seen] eqn:Hrun. subst run.
  destruct (lifetime_sound l _ s seen
              (init_consistent db tablename fieldname dbset message) Hrun)
    as [Hc [_ Hseen]].
  simpl. split.
  - intros a. rewrite (Hc a). destruct (slot a s); auto.
  - intros a v w Hv Hw. apply Hseen in Hv. apply Hseen in Hw. congruence.
Qed.
End CachedProperties.

(** The inputs are assigned anew between the reads: the reads agree. *)
Example cachedprop_survives_assignment :
  let run :=
    DBValidator.lifetime Examples.unique_name
      [DBValidator.Access DBValidator.table_prop;
       DBValidator.Assign_tablename "nothing";
       DBValidator.Assign_db [];
       DBValidator.Access DBValidator.table_prop;
       DBValidator.Access DBValidator.field_prop;
       DBValidator.Assign_fieldname "id";
       DBValidator.Access DBValidator.field_prop] in
  snd run =
  [(DBValidator.table_prop, DBValidator.Table_value Examples.things);
   (DBValidator.table_prop, DBValidator.Table_value Examples.things);
   (DBValidator.field_prop,
    DBValidator.Field_value {| dal.of_table := "things"; dal.name := "name" |});
   (DBValidator.field_prop,
    DBValidator.Field_value {| dal.of_table := "things"; dal.name := "name" |})] /\
  DBValidator.computed (fst run) = [DBValidator.field_prop; DBValidator.table_prop].
Proof. split; reflexivity. Qed.

(** ** [notInDB] *)

Section NotInDBProperties.
Context {T : I18n}.
Import dal.

(** Fetching at most one row that satisfies the query gives the first
    such row of the query-set. *)
Lemma first_select_where (rows : DBSet) (q : Query) :
  first (select (where_ rows q) None (Some (0, 1)%nat)) = find (satisfies q) rows.
Proof.
  unfold first, select, where_. simpl.
  induction rows as [|r rows IH]; simpl; [reflexivity|].
  destruct (satisfies q r); simpl; [reflexivity | exact IH].
Qed.

Lemma find_none_iff (rows : DBSet) (q : Query) :
  find (satisfies q) rows = None <-> forall r, In r rows -> satisfies q r = false.
Proof.
  split.
  - intros H r Hin. exact (find_none _ _ H r Hin).
  - intros H. induction rows as [|r rows IH]; simpl; [reflexivity|].
    rewrite (H r (or_introl eq_refl)). apply IH. intros r' Hin. apply H. now right.
Qed.

(** Reading [dbset] or [field] does not touch the message. *)
Lemma dbset_message (s s' : DBValidator.t) (r : option DBSet) :
  DBValidator.dbset s = (r, s') -> DBValidator.message s' = DBValidator.message s.
Proof.
  intros Hrun. destruct s as [msg db tn fn factory dt dd df hist].
  unfold DBValidator.dbset, DBValidator.table, cachedprop, bind, attr, lift,
    DBValidator.returned, ret in Hrun; simpl in Hrun.
  repeat (match type of Hrun with
          | context [match ?x with _ => _ end] =>
              match type of x with
              | option _ => destruct x eqn:?
              end
          end; simpl in * );
    injection Hrun as <- <-; reflexivity.
Qed.

Lemma field_message (s s' : DBValidator.t) (r : option Field) :
  DBValidator.field s = (r, s') -> DBValidator.message s' = DBValidator.message s.
Proof.
  intros Hrun. destruct s as [msg db tn fn factory dt dd df hist].
  unfold DBValidator.field, DBValidator.table, cachedprop, bind, attr, lift,
    DBValidator.returned, ret in Hrun; simpl in Hrun.
  repeat (match type of Hrun with
          | context [match ?x with _ => _ end] =>
              match type of x with
              | option _ => destruct x eqn:?
              end
          end; simpl in * );
    injection Hrun as <- <-; reflexivity.
Qed.

(** What [__call__] answers once the query-set and the field are
    there. *)
Lemma notInDB_call_run (s s1 s2 : DBValidator.t) (current : namespace)
    (v : pyval) (rows : DBSet) (f : Field) :
  DBValidator.dbset s = (Some rows, s1) ->
  DBValidator.field s1 = (Some f, s2) ->
  fst (notInDB.__call__ current v s) =
  Some (v,
        match find (satisfies (Equals f v)) rows with
        | Some row =>
            if py_eq (id row) (getattr current "_dbvalidation_record_id_" PNone)
            then None
            else Some (translate (DBValidator.message s))
        | None => None
        end).
Proof.
  intros Hset Hfield.
  pose proof (dbset_message _ _ _ Hset) as Hm1.
  pose proof (field_message _ _ _ Hfield) as Hm2.
  unfold notInDB.__call__, bind. rewrite Hset, Hfield, first_select_where.
  destruct (find (satisfies (Equals f v)) rows) as [row|]; [|reflexivity].
  destruct (py_eq (id row) _); simpl; [reflexivity|].
  unfold attr, ret. simpl. rewrite Hm2, Hm1. reflexivity.
Qed.

(** C1. Once the query-set and the field are resolved, the check passes
    when no row of the query-set has the field equal to the value; when
    there is one, the row fetched is the first such row, and the check
    passes if and only if the id of that row equals the record id read
    from the request-scoped [current] ([None] when it is not set), and
    fails with the translated message otherwise. *)
Theorem notInDB_call_spec (s s1 s2 : DBValidator.t) (current : namespace)
    (v : pyval) (rows : DBSet) (f : Field) :
  DBValidator.dbset s = (Some rows, s1) ->
  DBValidator.field s1 = (Some f, s2) ->
  let result := fst (notInDB.__call__ current v s) in
  let record_id := getattr current "_dbvalidation_record_id_" PNone in
  ((forall r, In r rows -> satisfies (Equals f v) r = false) ->
   result = Some (v, None)) /\
  (forall row,
     find (satisfies (Equals f v)) rows = Some row ->
     (result = Some (v, None) <-> py_eq (id row) record_id = true) /\
     (py_eq (id row) record_id = false ->
      result = Some (v, Some (translate (DBValidator.message s))))).
Proof.
  intros Hset Hfield result record_id. subst result record_id.
  rewrite (notInDB_call_run s s1 s2 current v rows f Hset Hfield).
  split.
  - intros Hnone. apply find_none_iff in Hnone. rewrite Hnone. reflexivity.
  - intros row Hrow. rewrite Hrow.
    destruct (py_eq (id row) _); split.
    + split; reflexivity.
    + discriminate.
    + split; discriminate.
    + reflexivity.
Qed.
End NotInDBProperties.

(** While record 2 is edited its own name is let through. *)
Lemma notInDB_call_spec_witness :
  fst (notInDB.__call__ (T := untranslated) Examples.editing_2 (PStr "nail")
         Examples.unique_name)
  = Some (PStr "nail", None).
Proof.
  exact (proj2 (proj1 (proj2 (notInDB_call_spec (T := untranslated)
           Examples.unique_name _ _ Examples.editing_2 (PStr "nail") _ _
           eq_refl eq_refl)
           {| dal.id := PInt 2; dal.columns := [("name", PStr "nail")] |}
           eq_refl)) eq_refl).
Defined.

(** The name of another record is turned down; a new name passes. *)
Example notInDB_examples :
  fst (notInDB.__call__ (T := untranslated) Examples.editing_2 (PStr "hammer")
         Examples.unique_name)
  = Some (PStr "hammer", Some "Already taken") /\
  fst (notInDB.__call__ (T := untranslated) Examples.editing_2 (PStr "screw")
         Examples.unique_name)
  = Some (PStr "screw", None) /\
  fst (notInDB.__call__ (T := untranslated) [] (PStr "nail") Examples.unique_name)
  = Some (PStr "nail", Some "Already taken").
Proof. repeat split; reflexivity. Qed.

(** ** [inDB] *)

Section InDBProperties.
Context {R : PyRuntime} {T : I18n}.
Import dal.

(** The keys of a row turned into a [dict] are field names: no integer
    is among them. *)
Lemma as_dict_no_integer_key (r : Row) (k : Z) :
  dict_getitem (as_dict r) (PInt k) = None.
Proof.
  unfold as_dict. simpl.
  induction (columns r) as [|[n v] l IH]; simpl; [reflexivity | exact IH].
Qed.

Lemma index_0_raises (l : list Row) :
  l <> [] ->
  inDB.comprehension (fun i => dict_getitem i (PInt 0)) (as_list l) = None.
Proof.
  destruct l as [|r l]; [congruence|]. intros _.
  unfold as_list. cbn [map inDB.comprehension].
  now rewrite (as_dict_no_integer_key r 0).
Qed.

(** What [_get_rows] gives is a list of rows turned into [dict]s, and it
    leaves [multiple] as it is. *)
Lemma _get_rows_as_list (s s' : inDB.t) (dicts : list pydict) :
  inDB._get_rows s = (Some dicts, s') ->
  inDB.multiple s' = inDB.multiple s /\ exists l, dicts = as_list l.
Proof.
  unfold inDB._get_rows, inDB.sorting, inDB.inherited, cachedprop, bind, attr, ret.
  destruct (DBValidator.dbset (inDB.base s)) as [[rows|] b]; simpl;
    [|discriminate].
  destruct (inDB.dict_sorting s) as [o|]; simpl.
  - intros H. injection H as <- <-. split; [reflexivity | eexists; reflexivity].
  - destruct (inDB.orderby s) as [ | o | f]; simpl;
      try (intros H; injection H as <- <-; split; [reflexivity | eexists; reflexivity]).
    destruct (DBValidator.table b) as [[tb|] b']; simpl; [|discriminate].
    intros H. injection H as <- <-. split; [reflexivity | eexists; reflexivity].
Qed.

(** In multiple mode, as soon as one row is fetched the check raises,
    whatever the value. *)
Lemma inDB_multiple_raises (s s' : inDB.t) (dicts : list pydict) (v : pyval) :
  inDB.multiple s = true ->
  inDB._get_rows s = (Some dicts, s') ->
  dicts <> [] ->
  fst (inDB.__call__ v s) = None.
Proof.
  intros Hm Hrows Hne.
  destruct (_get_rows_as_list s s' dicts Hrows) as [_ [l ->]].
  unfold inDB.__call__, bind, attr. simpl. rewrite Hm, Hrows.
  unfold lift. rewrite index_0_raises; [reflexivity|].
  intros ->. apply Hne. reflexivity.
Qed.

(** With no row fetched the check returns, and passes exactly when the
    input holds no value. *)
Lemma inDB_multiple_no_rows (s s' : inDB.t) (v : pyval) :
  inDB.multiple s = true ->
  inDB._get_rows s = (Some [], s') ->
  fst (inDB.__call__ v s) =
  Some (if inDB.every_value_is_a_row_id (if is_list v then v else PList [v]) []
        then (if is_list v then v else PList [v], None)
        else (v, Some (translate (DBValidator.message (inDB.base s'))))).
Proof.
  intros Hm Hrows.
  unfold inDB.__call__, bind, attr. simpl. rewrite Hm, Hrows.
  unfold lift. simpl. unfold inDB.every_value_is_a_row_id.
  destruct (inSet.items (if is_list v then v else PList [v])) as [|x l]; simpl;
    reflexivity.
Qed.
End InDBProperties.

(** C6. In multiple mode the check should pass when every value of the
    input list is the id of some fetched row.  On the store of two rows,
    with ids 1 and 2, the value [[1]] is such an input, and [options]
    reads the ids of the same rows with [r['id']]; yet [__call__] reads
    [i[0]] from rows that are [dict]s keyed by field names, and raises. *)
Theorem inDB_multiple_index_raises :
  inDB.every_value_is_a_row_id (PList [PInt 1]) (dal.rows Examples.things) = true /\
  fst (inDB.__call__ (T := untranslated) (PList [PInt 1]) Examples.some_things) = None /\
  fst (inDB.options (R := CPython) Examples.some_things)
  = Some [(PInt 1, PInt 1); (PInt 2, PInt 2)].
Proof. repeat split; reflexivity. Qed.

(** * Further properties *)

(** ** [inSet]: the multiple mode, the constructor and [options] *)

Section InSetFurther.
Context {R : PyRuntime} {T : I18n}.
Import inSet.

(** In multiple mode a value with failing elements is a true value, so
    the test for [None] or the empty string answers false. *)
Lemma override_not_taken (self : t) (v : pyval) :
  enabled (multiple self) = true ->
  failures self (normalize self v) <> [] ->
  (is_none v || py_eq v (PStr ""))%bool = false.
Proof.
  intros Hm Hf.
  destruct (is_none v || py_eq v (PStr ""))%bool eqn:E; [|reflexivity].
  exfalso. apply Hf. apply falsy_of_override in E.
  rewrite normalize_falsy by assumption. reflexivity.
Qed.

(** The call in multiple mode, by cases on the failing elements. *)
Lemma multiple_mode_call (self : t) (v : pyval) :
  enabled (multiple self) = true ->
  __call__ self v =
  if (nonempty (failures self (normalize self v)) && nonempty (theset self))%bool
  then (v, Some (translate (message self)))
  else if count_out_of_bounds (multiple self) (normalize self v)
       then (normalize self v, Some (translate (message self)))
       else (normalize self v, None).
Proof.
  intros Hm. unfold __call__, call_at. rewrite Hm.
  destruct (nonempty (failures self (normalize self v))) eqn:Hf; simpl.
  - destruct (nonempty (theset self)); simpl.
    + rewrite (override_not_taken self v Hm); [reflexivity | now apply nonempty_true].
    + destruct (count_out_of_bounds _ _); reflexivity.
  - destruct (count_out_of_bounds _ _); reflexivity.
Qed.

(** The call in single mode. *)
Lemma single_mode_call (self : t) (v : pyval) :
  enabled (multiple self) = false ->
  __call__ self v =
  if (negb (existsb (String.eqb (py_str v)) (theset self)) && nonempty (theset self))%bool
  then (v, Some (translate (message self)))
  else (v, None).
Proof.
  intros Hsingle.
  unfold __call__, call_at, failures, normalize. rewrite Hsingle. simpl.
  destruct (existsb (String.eqb (py_str v)) (theset self)); simpl; [reflexivity|].
  destruct (nonempty (theset self)); reflexivity.
Qed.

Lemma count_in_bounds (m : multiple_t) (values : pyval) :
  count_out_of_bounds m values = false <->
  match m with
  | Bounds lo hi => lo <= Z.of_nat (List.length (items values)) < hi
  | Flag _ => True
  end.
Proof.
  destruct m as [b | lo hi]; simpl; [tauto|].
  destruct (lo <=? Z.of_nat (List.length (items values))) eqn:E1;
    destruct (Z.of_nat (List.length (items values)) <? hi) eqn:E2; simpl;
    split; intros H; try reflexivity; try discriminate; lia.
Qed.

(** In multiple mode the check passes, returning the normalized values,
    exactly when every element is allowed (or the allowed set is empty)
    and, for a [(min, max)] pair, [min <= count < max]; when some element
    is not allowed and the allowed set is not empty, it returns the value
    as it was given, with the message. *)
Theorem inSet_multiple_mode (self : t) (v : pyval) :
  enabled (multiple self) = true ->
  let values := normalize self v in
  let allowed :=
    theset self = [] \/
    forall x, In x (items values) -> In (py_str x) (theset self) in
  let counted :=
    match multiple self with
    | Bounds lo hi => lo <= Z.of_nat (List.length (items values)) < hi
    | Flag _ => True
    end in
  (allowed /\ counted -> __call__ self v = (values, None)) /\
  (~ allowed -> __call__ self v = (v, Some (translate (message self)))) /\
  (snd (__call__ self v) = None <-> allowed /\ counted).
Proof.
  intros Hm values allowed counted. subst values allowed counted.
  rewrite (multiple_mode_call self v Hm).
  pose proof (failures_nil self (normalize self v)) as Hnil.
  pose proof (count_in_bounds (multiple self) (normalize self v)) as Hcount.
  destruct (nonempty (failures self (normalize self v))) eqn:Hf; simpl.
  - apply nonempty_true in Hf.
    destruct (nonempty (theset self)) eqn:Hs; simpl.
    + apply nonempty_true in Hs.
      assert (Hnot : ~ (theset self = [] \/
                        forall x, In x (items (normalize self v)) ->
                                  In (py_str x) (theset self))).
      { intros [H | H]; [contradiction | apply Hf, Hnil, H]. }
      split; [intros [H _]; contradiction|].
      split; [intros _; reflexivity|].
      split; [discriminate | intros [H _]; contradiction].
    + apply nonempty_false in Hs.
      destruct (count_out_of_bounds _ _) eqn:Hc; simpl.
      * assert (Hnc : ~ match multiple self with
                        | Bounds lo hi =>
                            lo <= Z.of_nat (List.length (items (normalize self v))) < hi
                        | Flag _ => True
                        end).
        { intros H. apply Hcount in H. congruence. }
        split; [intros [_ H]; contradiction|].
        split; [intros H; exfalso; apply H; left; exact Hs|].
        split; [discriminate | intros [_ H]; contradiction].
      * split; [intros _; reflexivity|].
        split; [intros H; exfalso; apply H; left; exact Hs|].
        split; [intros _; split; [left; exact Hs | apply Hcount; reflexivity]
               | intros _; reflexivity].
  - apply nonempty_false in Hf. pose proof (proj1 Hnil Hf) as Hall. clear Hf.
    rename Hall into Hf.
    destruct (count_out_of_bounds _ _) eqn:Hc; simpl.
    + assert (Hnc : ~ match multiple self with
                      | Bounds lo hi =>
                          lo <= Z.of_nat (List.length (items (normalize self v))) < hi
                      | Flag _ => True
                      end).
      { intros H. apply Hcount in H. congruence. }
      split; [intros [_ H]; contradiction|].
      split; [intros H; exfalso; apply H; right; exact Hf|].
      split; [discriminate | intros [_ H]; contradiction].
    + split; [intros _; reflexivity|].
      split; [intros H; exfalso; apply H; right; exact Hf|].
      split; [intros _; split; [right; exact Hf | apply Hcount; reflexivity]
             | intros _; reflexivity].
Qed.

(** Normalizing twice is normalizing once. *)
Lemma normalize_normalized (self : t) (v : pyval) :
  enabled (multiple self) = true ->
  normalize self (normalize self v) = normalize self v.
Proof.
  intros Hm. unfold normalize. rewrite Hm.
  destruct (truthy v) eqn:Hv; simpl; [|reflexivity].
  destruct (is_sequence v) eqn:Hs; simpl.
  - rewrite Hv, Hs. reflexivity.
  - reflexivity.
Qed.

(** What the check returns is accepted as it is: checking the returned
    value again gives the same result. *)
Theorem inSet_revalidate (self : t) (v : pyval) :
  __call__ self (fst (__call__ self v)) = __call__ self v.
Proof.
  destruct (enabled (multiple self)) eqn:Hm.
  - rewrite (multiple_mode_call self v Hm).
    destruct (nonempty (failures self (normalize self v)) && nonempty (theset self))%bool
      eqn:Hfail; simpl.
    + rewrite (multiple_mode_call self v Hm), Hfail. reflexivity.
    + destruct (count_out_of_bounds (multiple self) (normalize self v)) eqn:Hc; simpl;
        rewrite (multiple_mode_call self _ Hm), (normalize_normalized self v Hm),
          Hfail, Hc; reflexivity.
  - rewrite (single_mode_call self v Hm).
    destruct (negb _ && _)%bool eqn:E; simpl;
      rewrite (single_mode_call self v Hm), E; reflexivity.
Qed.

(** A pair [(min, max)] with [max <= min] lets nothing through: every
    value comes back with the message. *)
Theorem inSet_empty_bounds (self : t) (v : pyval) (lo hi : Z) :
  multiple self = Bounds lo hi ->
  hi <= lo ->
  snd (__call__ self v) = Some (translate (message self)).
Proof.
  intros Hm Hle.
  assert (He : enabled (multiple self) = true) by (rewrite Hm; reflexivity).
  rewrite (multiple_mode_call self v He).
  destruct (nonempty _ && nonempty _)%bool; simpl; [reflexivity|].
  destruct (count_out_of_bounds _ _) eqn:Hc; simpl; [reflexivity|].
  apply count_in_bounds in Hc. rewrite Hm in Hc. lia.
Qed.
End InSetFurther.

Section InSetConstructor.
Context {R : PyRuntime} {T : I18n}.
Import inSet.

Lemma init_cases (theset : list pyval) (labels : option (list string))
    (multiple : multiple_t) (zero : option string) (sort : bool) (message : string) :
  __init__ theset labels multiple zero sort message =
  if pairs_given theset then
    option_map
      (fun ps =>
         {| inSet.message := message; inSet.multiple := multiple;
            inSet.theset := map (fun p => py_str (fst p)) ps;
            inSet.labels := Some (map (fun p => py_str (snd p)) ps);
            inSet.zero := zero; inSet.sort := sort |})
      (unpack_all theset)
  else
    Some {| inSet.message := message; inSet.multiple := multiple;
            inSet.theset := map py_str theset;
            inSet.labels := labels;
            inSet.zero := zero; inSet.sort := sort |}.
Proof.
  unfold __init__, pairs_given.
  destruct (match theset with [] => false | first :: _ => _ end); [|reflexivity].
  destruct (unpack_all theset); reflexivity.
Qed.

Lemma unpack_all_length (l : list pyval) (ps : list (pyval * pyval)) :
  unpack_all l = Some ps -> List.length ps = List.length l.
Proof.
  revert ps. induction l as [|v l IH]; intros ps H; simpl in H.
  - injection H as <-. reflexivity.
  - destruct (unpack2 v) as [p|]; simpl in H; [|discriminate].
    destruct (unpack_all l) as [ps'|]; simpl in H; [|discriminate].
    injection H as <-. simpl. f_equal. apply IH. reflexivity.
Qed.

Lemma unpack_all_raises (l : list pyval) :
  unpack_all l = None <-> exists v, In v l /\ unpack2 v = None.
Proof.
  induction l as [|v l IH]; simpl.
  - split; [discriminate | intros [v [[] _]]].
  - destruct (unpack2 v) as [p|] eqn:Hv; simpl.
    + destruct (unpack_all l) as [ps|]; simpl.
      * split; [discriminate|].
        intros [x [[<- | Hin] Hx]]; [congruence|].
        apply proj2 in IH. discriminate IH. exists x. split; assumption.
      * split; [|reflexivity].
        intros _. destruct (proj1 IH eq_refl) as [x [Hin Hx]].
        exists x. split; [right; assumption | assumption].
    + split; [|reflexivity]. intros _. exists v. split; [left; reflexivity | assumption].
Qed.

(** Built from a list of [(item, label)] pairs, the constructor raises
    exactly when some element does not unpack into two; when it returns,
    the allowed set and the labels have one entry for each element. *)
Theorem inSet_init_of_pairs (theset : list pyval) (labels : option (list string))
    (multiple : multiple_t) (zero : option string) (sort : bool) (message : string) :
  pairs_given theset = true ->
  (__init__ theset labels multiple zero sort message = None <->
   exists v, In v theset /\ unpack2 v = None) /\
  (forall self,
     __init__ theset labels multiple zero sort message = Some self ->
     List.length (inSet.theset self) = List.length theset /\
     exists ls, inSet.labels self = Some ls /\ List.length ls = List.length theset).
Proof.
  intros Hpairs. rewrite init_cases, Hpairs. split.
  - rewrite <- unpack_all_raises.
    destruct (unpack_all theset); simpl; split; congruence.
  - intros self Hinit.
    destruct (unpack_all theset) as [ps|] eqn:Hps; simpl in Hinit; [|discriminate].
    injection Hinit as <-. simpl. apply unpack_all_length in Hps.
    split; [now rewrite length_map|].
    eexists. split; [reflexivity | now rewrite length_map].
Qed.

Lemma accepted_in_single_mode (self : t) (x : pyval) :
  enabled (inSet.multiple self) = false ->
  In (py_str x) (inSet.theset self) ->
  __call__ self x = (x, None).
Proof.
  intros Hm Hin. rewrite (single_mode_call self x Hm).
  apply allowed_In in Hin. rewrite Hin. reflexivity.
Qed.

(** A single-mode validator accepts every item it was built from: the
    elements of a plain list, the first components of a list of pairs. *)
Theorem inSet_accepts_its_items (theset : list pyval) (labels : option (list string))
    (multiple : multiple_t) (zero : option string) (sort : bool) (message : string)
    (self : t) :
  enabled multiple = false ->
  __init__ theset labels multiple zero sort message = Some self ->
  (pairs_given theset = false ->
   forall x, In x theset -> __call__ self x = (x, None)) /\
  (pairs_given theset = true ->
   forall ps, unpack_all theset = Some ps ->
   forall p, In p ps -> __call__ self (fst p) = (fst p, None)).
Proof.
  intros Hm Hinit. rewrite init_cases in Hinit. split.
  - intros Hflat x Hx. rewrite Hflat in Hinit. injection Hinit as <-.
    apply accepted_in_single_mode; [exact Hm|]. simpl. now apply in_map.
  - intros Hpairs ps Hps p Hp. rewrite Hpairs, Hps in Hinit. simpl in Hinit.
    injection Hinit as <-.
    apply accepted_in_single_mode; [exact Hm|]. simpl.
    apply (in_map (fun p => py_str (fst p))). exact Hp.
Qed.

Lemma with_labels_raises (theset labels : list string) :
  with_labels theset labels = None <->
  (List.length labels < List.length theset)%nat.
Proof.
  revert labels. induction theset as [|k theset IH]; intros labels; simpl.
  - split; [discriminate | lia].
  - destruct labels as [|l labels]; simpl.
    + split; [lia | reflexivity].
    + specialize (IH labels).
      destruct (with_labels theset labels); simpl in *; split; intros H.
      * discriminate.
      * apply proj2 in IH. discriminate IH. lia.
      * apply proj1 in IH. specialize (IH eq_refl). lia.
      * reflexivity.
  Qed.

Lemma with_labels_keys (theset labels : list string) (items : list (string * string)) :
  with_labels theset labels = Some items -> map fst items = theset.
Proof.
  revert labels items. induction theset as [|k theset IH]; intros labels items H;
    simpl in H.
  - injection H as <-. reflexivity.
  - destruct labels as [|l labels]; [discriminate|].
    destruct (with_labels theset labels) as [items'|] eqn:E; simpl in H; [|discriminate].
    injection H as <-. simpl. f_equal. eapply IH. exact E.
Qed.

Lemma keys_of_plain (theset : list string) :
  map fst (map (fun k : string => (k, k)) theset) = theset.
Proof. induction theset as [|k l IH]; simpl; [reflexivity | now rewrite IH]. Qed.

Lemma labelled_items_raises (self : t) :
  labelled_items self = None <->
  exists ls, inSet.labels self = Some ls /\ ls <> [] /\
             (List.length ls < List.length (inSet.theset self))%nat.
Proof.
  unfold labelled_items.
  destruct (inSet.labels self) as [[|l ls]|] eqn:Hl.
  - split; [discriminate|]. intros [ls [H [Hne _]]]. injection H as <-. congruence.
  - rewrite with_labels_raises. split.
    + intros H. exists (l :: ls). split; [reflexivity|]. split; [discriminate | exact H].
    + intros [ls' [H [_ Hlt]]]. injection H as <-. exact Hlt.
  - split; [discriminate|]. intros [ls [H _]]. discriminate.
Qed.

Lemma labelled_items_keys (self : t) (items : list (string * string)) :
  labelled_items self = Some items -> map fst items = inSet.theset self.
Proof.
  unfold labelled_items.
  destruct (inSet.labels self) as [[|l ls]|]; intros H.
  - injection H as <-. apply keys_of_plain.
  - eapply with_labels_keys. exact H.
  - injection H as <-. apply keys_of_plain.
Qed.

(** [options] raises exactly when labels are given and there are fewer
    of them than allowed items ([IndexError]), or [sort] is set and the
    sort raises; under Python 3, where the sort always raises, exactly
    when labels are short or [sort] is set. *)
Theorem inSet_options_raises
    (sort_items : list (string * string) -> option (list (string * string)))
    (self : t) (zero : bool) :
  let short_labels :=
    exists ls, inSet.labels self = Some ls /\ ls <> [] /\
               (List.length ls < List.length (inSet.theset self))%nat in
  (options sort_items self zero = None <->
   short_labels \/
   (inSet.sort self = true /\
    exists items, labelled_items self = Some items /\ sort_items items = None)) /\
  (options python3_sort self zero = None <->
   short_labels \/ inSet.sort self = true).
Proof.
  intros short_labels. subst short_labels.
  assert (Hgeneral : forall sorter,
             options sorter self zero = None <->
             (exists ls, inSet.labels self = Some ls /\ ls <> [] /\
                         (List.length ls < List.length (inSet.theset self))%nat) \/
             (inSet.sort self = true /\
              exists items, labelled_items self = Some items /\ sorter items = None)).
  { intros sorter. unfold options.
    pose proof (labelled_items_raises self) as Hshort.
    destruct (labelled_items self) as [items|]; simpl.
    - destruct (inSet.sort self) eqn:Hsort.
      + destruct (sorter items) as [sorted|] eqn:Hsorted; simpl.
        * split.
          -- destruct (inSet.zero self); [destruct (zero && _)%bool|]; discriminate.
          -- intros [H | [_ [items' [Hi Hs]]]].
             ++ apply Hshort in H. discriminate.
             ++ injection Hi as <-. congruence.
        * split; [|reflexivity]. intros _. right.
          split; [reflexivity|]. exists items. split; [reflexivity | exact Hsorted].
      + simpl. split.
        * destruct (inSet.zero self); [destruct (zero && _)%bool|]; discriminate.
        * intros [H | [H _]]; [apply Hshort in H|]; discriminate.
    - split; [|reflexivity]. intros _. left. apply Hshort. reflexivity. }
  split; [apply Hgeneral|].
  rewrite Hgeneral. split.
  - intros [H | [H _]]; [left | right]; assumption.
  - intros [H | H]; [left; exact H|].
    pose proof (labelled_items_raises self) as Hshort.
    destruct (labelled_items self) as [items|] eqn:Hitems.
    + right. split; [exact H|]. exists items. split; reflexivity.
    + left. apply Hshort. reflexivity.
Qed.

(** Every option offered is an allowed item or the zero entry, so in
    single mode every key offered, the empty key of the zero entry apart,
    passes the check; [sort_items], when it returns, is any rearrangement
    that adds no item, and [str] gives a string back as it is. *)
Theorem inSet_options_are_accepted
    (sort_items : list (string * string) -> option (list (string * string)))
    (self : t) (zero : bool) (offered : list (string * string)) :
  (forall l l' x, sort_items l = Some l' -> In x l' -> In x l) ->
  (forall s, py_str (PStr s) = s) ->
  enabled (inSet.multiple self) = false ->
  options sort_items self zero = Some offered ->
  forall k label,
    In (k, label) offered ->
    (In k (inSet.theset self) \/ (k = "" /\ inSet.zero self = Some label)) /\
    (k <> "" -> __call__ self (PStr k) = (PStr k, None)).
Proof.
  intros Hsort Hstr Hm Hopt k label Hin.
  assert (Hkey : In k (inSet.theset self) \/ (k = "" /\ inSet.zero self = Some label)).
  { unfold options in Hopt.
    destruct (labelled_items self) as [items|] eqn:Hitems; simpl in Hopt;
      [|discriminate].
    apply labelled_items_keys in Hitems.
    destruct (if inSet.sort self then sort_items items else Some items)
      as [sorted|] eqn:Hsorted; simpl in Hopt; [|discriminate].
    assert (Hkeys : forall x, In x sorted -> In (fst x) (inSet.theset self)).
    { intros x Hx. rewrite <- Hitems. apply in_map.
      destruct (inSet.sort self).
      - exact (Hsort _ _ _ Hsorted Hx).
      - injection Hsorted as <-. exact Hx. }
    destruct (inSet.zero self) as [z|].
    - destruct (zero && negb (enabled (inSet.multiple self)))%bool;
        injection Hopt as <-.
      + destruct Hin as [Heq | Hin].
        * injection Heq as <- <-. right. split; reflexivity.
        * left. exact (Hkeys _ Hin).
      + left. exact (Hkeys _ Hin).
    - injection Hopt as <-. left. exact (Hkeys _ Hin). }
  split; [exact Hkey|].
  intros Hne. destruct Hkey as [Hk | [Hk _]]; [|contradiction].
  apply accepted_in_single_mode; [exact Hm|]. rewrite Hstr. exact Hk.
Qed.
End InSetConstructor.

(** Two allowed values selected where any number may be. *)
Lemma inSet_multiple_mode_witness :
  inSet.__call__ (R := CPython) (T := untranslated) Examples.ab_many
    (PList [PStr "b"; PStr "a"])
  = (PList [PStr "b"; PStr "a"], None).
Proof.
  apply (proj1 (inSet_multiple_mode (R := CPython) (T := untranslated)
                  Examples.ab_many (PList [PStr "b"; PStr "a"]) eq_refl)).
  split; [|exact I].
  right. intros x [<-|[<-|[]]]; simpl; auto.
Defined.

(** [multiple=(1, 1)] turns down even a single allowed value. *)
Lemma inSet_empty_bounds_witness :
  snd (inSet.__call__ (R := CPython) (T := untranslated) Examples.ab_exactly_one
         (PList [PStr "a"]))
  = Some "Invalid value".
Proof.
  apply (inSet_empty_bounds (R := CPython) (T := untranslated)
           Examples.ab_exactly_one (PList [PStr "a"]) 1 1 eq_refl).
  lia.
Defined.

(** A list of two pairs gives two allowed items and two labels. *)
Lemma inSet_init_of_pairs_witness :
  inSet.pairs_given [PTuple [PInt 1; PStr "one"]; PList [PInt 2; PStr "two"]] = true /\
  exists self,
    inSet.__init__ (R := CPython)
      [PTuple [PInt 1; PStr "one"]; PList [PInt 2; PStr "two"]] None
      (inSet.Flag false) None false "Invalid value" = Some self /\
    List.length (inSet.theset self) = 2%nat /\
    exists ls, inSet.labels self = Some ls /\ List.length ls = 2%nat.
Proof.
  split; [reflexivity|].
  eexists. split; [reflexivity|].
  exact (proj2 (inSet_init_of_pairs (R := CPython)
                  [PTuple [PInt 1; PStr "one"]; PList [PInt 2; PStr "two"]] None
                  (inSet.Flag false) None false "Invalid value" eq_refl)
           _ eq_refl).
Defined.

(** A pair followed by something that is no pair makes the constructor
    raise. *)
Example inSet_init_raises :
  inSet.__init__ (R := CPython) [PTuple [PInt 1; PStr "one"]; PStr "two"] None
    (inSet.Flag false) None false "Invalid value" = None.
Proof. reflexivity. Qed.

(** [inSet([1, "b"])] accepts the integer [1] it was built from. *)
Lemma inSet_accepts_its_items_witness :
  exists self,
    inSet.__init__ (R := CPython) [PInt 1; PStr "b"] None (inSet.Flag false)
      None false "Invalid value" = Some self /\
    inSet.__call__ (R := CPython) (T := untranslated) self (PInt 1) = (PInt 1, None).
Proof.
  eexists. split; [reflexivity|].
  apply (proj1 (inSet_accepts_its_items (R := CPython) (T := untranslated)
                  [PInt 1; PStr "b"] None (inSet.Flag false) None false
                  "Invalid value" _ eq_refl eq_refl) eq_refl).
  left. reflexivity.
Defined.

(** The options of [inSet(["a", "b", "c"], zero="Choose")]: the key ["b"]
    is offered and accepted. *)
Lemma inSet_options_are_accepted_witness :
  inSet.options inSet.python3_sort Examples.abc_or_nothing true
  = Some [("", "Choose"); ("a", "a"); ("b", "b"); ("c", "c")] /\
  inSet.__call__ (R := CPython) (T := untranslated) Examples.abc_or_nothing (PStr "b")
  = (PStr "b", None).
Proof.
  split; [reflexivity|].
  refine (proj2 (inSet_options_are_accepted (R := CPython) (T := untranslated)
                   inSet.python3_sort Examples.abc_or_nothing true
                   [("", "Choose"); ("a", "a"); ("b", "b"); ("c", "c")]
                   _ (fun s => eq_refl) eq_refl eq_refl
                   "b" "b" (or_intror (or_intror (or_introl eq_refl)))) _).
  - intros l l' x H. discriminate H.
  - discriminate.
Defined.

(** Fewer labels than items: [options] raises; so it does under Python 3
    for a validator that asks for sorted options. *)
Example inSet_options_short_labels :
  inSet.options inSet.python3_sort
    {| inSet.message := "Invalid value"; inSet.multiple := inSet.Flag false;
       inSet.theset := ["a"; "b"]; inSet.labels := Some ["A"];
       inSet.zero := None; inSet.sort := false |} true = None /\
  inSet.options inSet.python3_sort
    {| inSet.message := "Invalid value"; inSet.multiple := inSet.Flag false;
       inSet.theset := ["a"; "b"]; inSet.labels := None;
       inSet.zero := None; inSet.sort := true |} true = None.
Proof. split; reflexivity. Qed.

(** ** [inRange]: absent bounds, custom messages, integer bounds *)

Section InRangeFurther.
Context {R : PyRuntime} {T : I18n} {World : Type}.
Import inRange.

(** A validator without bounds lets every value through and compares
    nothing: it does not raise either. *)
Theorem inRange_without_bounds (self : t World) (w : World) (v : pyval) :
  resolve w (minimum self) = PNone ->
  resolve w (maximum self) = PNone ->
  __call__ self w v = Some (v, None).
Proof.
  intros Hmin Hmax. rewrite call_cases, Hmin, Hmax. reflexivity.
Qed.

(** When a check answers false the call is the failing [return]. *)
Lemma call_when_fails (self : t World) (w : World) (v : pyval) :
  minimum_fails self w v \/ (minimum_succeeds self w v /\ maximum_fails self w v) ->
  __call__ self w v = failure self w v.
Proof.
  unfold minimum_fails, minimum_succeeds, maximum_fails.
  rewrite call_cases. intros [Hmin | [Hmin Hmax]].
  - apply py_or_fails in Hmin. rewrite Hmin. reflexivity.
  - apply py_or_succeeds in Hmin. apply py_or_fails in Hmax.
    rewrite Hmin, Hmax. reflexivity.
Qed.

(** A template without a percent sign formats to itself. *)
Lemma py_format_plain (template : string) (d : pydict) :
  has_char "%" template = false -> py_format template d = Some template.
Proof.
  unfold py_format. induction template as [|c rest IH]; [reflexivity|].
  intros H.
  change (has_char "%" (String c rest))
    with (Ascii.eqb "%" c || has_char "%" rest)%bool in H.
  apply orb_false_elim in H. destruct H as [Hc Hrest].
  cbn [py_format_from]. rewrite (Ascii.eqb_sym c "%"), Hc, (IH Hrest). reflexivity.
Qed.

(** A custom message goes through [translate] twice, in [_range_error]
    and again in [__call__]: when its translation holds no percent sign,
    a failing check returns the translation of the translation. *)
Theorem inRange_custom_message (self : t World) (w : World) (v : pyval)
    (m : string) :
  message self = Some m ->
  has_char "%" (translate m) = false ->
  minimum_fails self w v \/ (minimum_succeeds self w v /\ maximum_fails self w v) ->
  __call__ self w v = Some (v, Some (translate (translate m))).
Proof.
  intros Hm Hplain Hfails.
  rewrite (call_when_fails self w v Hfails).
  unfold failure, _range_error. rewrite Hm, (py_format_plain _ _ Hplain).
  reflexivity.
Qed.
End InRangeFurther.

(** *** Integer bounds under CPython, without a translator *)

(** [inRange(lo, hi, include=(a, b), message=msg)] *)
Lemma integers_call (lo hi z : Z) (a b : bool) (msg : option string) :
  inRange.__call__ (R := CPython) (T := untranslated) (World := unit)
    (inRange.__init__ (Some (inRange.Literal (PInt lo)))
       (Some (inRange.Literal (PInt hi))) (Some (a, b)) msg) tt (PInt z)
  = if ((if a then lo <=? z else lo <? z) && (if b then z <=? hi else z <? hi))%bool
    then Some (PInt z, None)
    else inRange.failure (R := CPython) (T := untranslated) (World := unit)
           (inRange.__init__ (Some (inRange.Literal (PInt lo)))
              (Some (inRange.Literal (PInt hi))) (Some (a, b)) msg) tt (PInt z).
Proof.
  rewrite call_cases. unfold inRange.minimum_check, inRange.maximum_check. simpl.
  destruct a; destruct b; simpl;
    destruct (Z.compare_spec z lo); destruct (Z.compare_spec z hi); simpl;
    repeat match goal with
           | |- context [?x <=? ?y] => destruct (Z.leb_spec x y); simpl
           | |- context [?x <? ?y] => destruct (Z.ltb_spec x y); simpl
           end;
    try reflexivity; lia.
Qed.

(** With integer bounds an integer passes exactly when it is in the range
    that the inclusivity flags describe. *)
Theorem inRange_integers (lo hi z : Z) (a b : bool) (msg : option string) :
  inRange.__call__ (R := CPython) (T := untranslated) (World := unit)
    (inRange.__init__ (Some (inRange.Literal (PInt lo)))
       (Some (inRange.Literal (PInt hi))) (Some (a, b)) msg) tt (PInt z)
  = Some (PInt z, None) <->
  (if a then lo <= z else lo < z) /\ (if b then z <= hi else z < hi).
Proof.
  rewrite integers_call.
  destruct ((if a then lo <=? z else lo <? z) && (if b then z <=? hi else z <? hi))%bool
    eqn:E.
  - apply andb_true_iff in E. destruct E as [E1 E2].
    split; [intros _ | reflexivity].
    destruct a; destruct b; split; lia.
  - split.
    + intros H. exfalso. exact (failure_not_pass _ _ _ H).
    + intros [H1 H2]. exfalso.
      apply andb_false_iff in E. destruct a; destruct b; destruct E; lia.
Qed.

Lemma append_empty (s : string) : s ++ "" = s.
Proof. induction s as [|c s IH]; simpl; [reflexivity | now rewrite IH]. Qed.

(** Given no message, [_range_error] writes one from the bounds it is
    given: for two integer bounds, "between" the minimum and the maximum
    less one; for a minimum alone, "greater than or equal to" it; for an
    integer maximum alone, "less than or equal to" the maximum less one;
    for no bound, "Enter a value" and no more. *)
Theorem inRange_range_error_generated (lo hi : Z) :
  inRange._range_error (R := CPython) (T := untranslated) None (PInt lo) (PInt hi)
  = Some ("Enter a value between " ++ str_int lo ++ " and " ++ str_int (hi - 1)) /\
  inRange._range_error (R := CPython) (T := untranslated) None (PInt lo) PNone
  = Some ("Enter a value greater than or equal to " ++ str_int lo) /\
  inRange._range_error (R := CPython) (T := untranslated) None PNone (PInt hi)
  = Some ("Enter a value less than or equal to " ++ str_int (hi - 1)) /\
  inRange._range_error (R := CPython) (T := untranslated) None PNone PNone
  = Some "Enter a value".
Proof.
  unfold inRange._range_error, inRange.default_message.
  repeat split; cbn -[str_int Z.sub]; rewrite ?append_empty; reflexivity.
Qed.

(** The "between" message given as the custom message. *)
Lemma range_error_between_template (lo hi : Z) :
  inRange._range_error (R := CPython) (T := untranslated)
    (Some "Enter a value between %(min)s and %(max)s") (PInt lo) (PInt hi)
  = Some ("Enter a value between " ++ str_int lo ++ " and " ++ str_int (hi - 1)).
Proof.
  unfold inRange._range_error.
  cbn -[str_int Z.sub]. rewrite append_empty. reflexivity.
Qed.

(** A message that shows [%(max)s] is one short when the maximum is
    inclusive: under [include=(True, True)] the integer [hi] passes,
    while [hi + 1], which is turned down, is told that the maximum is
    [hi - 1]. *)
Theorem inRange_inclusive_maximum_display (lo hi : Z) :
  lo <= hi ->
  inRange.__call__ (R := CPython) (T := untranslated) (World := unit)
    (inRange.__init__ (Some (inRange.Literal (PInt lo)))
       (Some (inRange.Literal (PInt hi))) (Some (true, true))
       (Some "Enter a value between %(min)s and %(max)s")) tt (PInt hi)
  = Some (PInt hi, None) /\
  inRange.__call__ (R := CPython) (T := untranslated) (World := unit)
    (inRange.__init__ (Some (inRange.Literal (PInt lo)))
       (Some (inRange.Literal (PInt hi))) (Some (true, true))
       (Some "Enter a value between %(min)s and %(max)s")) tt (PInt (hi + 1))
  = Some (PInt (hi + 1),
          Some ("Enter a value between " ++ str_int lo ++ " and "
                ++ str_int (hi - 1))).
Proof.
  intros Hle. rewrite !integers_call. split.
  - destruct (Z.leb_spec lo hi); destruct (Z.leb_spec hi hi); simpl;
      try reflexivity; lia.
  - destruct (Z.leb_spec lo (hi + 1)); destruct (Z.leb_spec (hi + 1) hi); simpl;
      try lia.
    unfold inRange.failure.
    cbn [inRange.resolve inRange.minimum inRange.maximum inRange.message
         inRange.__init__ Validator__init__ String.eqb Ascii.eqb Bool.eqb].
    rewrite range_error_between_template. reflexivity.
Qed.

(** [inRange()] takes a string as well as anything else. *)
Lemma inRange_without_bounds_witness :
  inRange.__call__ (R := CPython) (T := untranslated) (World := unit)
    (inRange.__init__ None None None None) tt (PStr "abc")
  = Some (PStr "abc", None).
Proof.
  apply (inRange_without_bounds (R := CPython) (T := untranslated)
           (inRange.__init__ None None None None) tt (PStr "abc") eq_refl eq_refl).
Defined.

(** [inRange(1, 10, message="Out of range")(20)] *)
Lemma inRange_custom_message_witness :
  inRange.__call__ (R := CPython) (T := untranslated) (World := unit)
    (inRange.__init__ (Some (inRange.Literal (PInt 1)))
       (Some (inRange.Literal (PInt 10))) None (Some "Out of range")) tt (PInt 20)
  = Some (PInt 20, Some "Out of range").
Proof.
  apply (inRange_custom_message (R := CPython) (T := untranslated)
           (inRange.__init__ (Some (inRange.Literal (PInt 1)))
              (Some (inRange.Literal (PInt 10))) None (Some "Out of range"))
           tt (PInt 20) "Out of range" eq_refl eq_refl).
  right. split.
  - intros _. reflexivity.
  - split; [discriminate | reflexivity].
Defined.

(** [inRange(1, 10, include=(True, True),
    message="Enter a value between %(min)s and %(max)s")]: 10 passes, 11
    is asked to be between 1 and 9. *)
Lemma inRange_inclusive_maximum_display_witness :
  inRange.__call__ (R := CPython) (T := untranslated) (World := unit)
    (inRange.__init__ (Some (inRange.Literal (PInt 1)))
       (Some (inRange.Literal (PInt 10))) (Some (true, true))
       (Some "Enter a value between %(min)s and %(max)s")) tt (PInt 10)
  = Some (PInt 10, None) /\
  inRange.__call__ (R := CPython) (T := untranslated) (World := unit)
    (inRange.__init__ (Some (inRange.Literal (PInt 1)))
       (Some (inRange.Literal (PInt 10))) (Some (true, true))
       (Some "Enter a value between %(min)s and %(max)s")) tt (PInt 11)
  = Some (PInt 11, Some "Enter a value between 1 and 9").
Proof.
  apply (inRange_inclusive_maximum_display 1 10). lia.
Defined.

(** ** The record validators: resolution, single mode, options *)

(** A value is equal to itself. *)
Lemma py_eq_refl : forall v, py_eq v v = true.
Proof.
  fix IH 1. intros [ | b | z | s | l | l]; simpl.
  - reflexivity.
  - destruct b; reflexivity.
  - apply Z.eqb_refl.
  - apply String.eqb_refl.
  - induction l as [|x l IHl]; [reflexivity|]. rewrite (IH x). exact IHl.
  - induction l as [|x l IHl]; [reflexivity|]. rewrite (IH x). exact IHl.
Qed.

(** Only [None] is equal to [None]. *)
Lemma py_eq_none (v : pyval) : py_eq v PNone = true <-> v = PNone.
Proof.
  destruct v as [ | b | z | s | l | l]; simpl; split; try congruence; try reflexivity.
Qed.

Section Resolution.
Import DBValidator dal.

Ltac run_accessors :=
  unfold access, dbset, field, table, cachedprop, bind, attr, lift, returned, ret in *;
  simpl in *.

Ltac split_options H :=
  repeat (match type of H with
          | context [match ?x with _ => _ end] =>
              match type of x with
              | option _ => destruct x eqn:?
              end
          end; simpl in * ).

(** A property that has its entry is read from it, and the instance is
    left as it is. *)
Lemma access_cached (a : accessor) (s : t) (v : value) :
  slot a s = Some v -> access a s = (Some v, s).
Proof.
  destruct s as [msg db tn fn factory dt dd df hist].
  destruct a; unfold slot; simpl; intros H; run_accessors.
  - destruct dt; simpl in *; [congruence | discriminate].
  - destruct dd; simpl in *; [congruence | discriminate].
  - destruct df; simpl in *; [congruence | discriminate].
Qed.

(** Reading a property keeps the entries there are, and what it gives is
    its entry afterwards. *)
Lemma access_fills (a : accessor) (s s' : t) (r : option value) :
  access a s = (r, s') ->
  kept s s' /\ (forall v, r = Some v -> slot a s' = Some v).
Proof.
  intros Hrun. destruct s as [msg db tn fn factory dt dd df hist].
  unfold kept, slot.
  destruct a; run_accessors; split_options Hrun;
    injection Hrun as <- <-; simpl;
    (split; [intros [] v; simpl; congruence | intros v; congruence]).
Qed.

(** A read that raises raises again on the instance it leaves. *)
Lemma access_raises_again (a : accessor) (s s' : t) :
  access a s = (None, s') -> access a s' = (None, s').
Proof.
  intros Hrun. destruct s as [msg db tn fn factory dt dd df hist].
  destruct a; run_accessors; split_options Hrun;
    try discriminate;
    injection Hrun as <-; simpl;
    repeat match goal with
           | H : _ = _ |- _ => rewrite H; simpl
           end;
    reflexivity.
Qed.
End Resolution.

Section RecordChecks.
Context {R : PyRuntime} {T : I18n}.
Import dal.

Lemma access_dbset (s : DBValidator.t) :
  DBValidator.access DBValidator.dbset_prop s
  = (option_map DBValidator.DBSet_value (fst (DBValidator.dbset s)),
     snd (DBValidator.dbset s)).
Proof.
  unfold DBValidator.access, bind, ret.
  destruct (DBValidator.dbset s) as [[v|] s1]; reflexivity.
Qed.

Lemma access_field (s : DBValidator.t) :
  DBValidator.access DBValidator.field_prop s
  = (option_map DBValidator.Field_value (fst (DBValidator.field s)),
     snd (DBValidator.field s)).
Proof.
  unfold DBValidator.access, bind, ret.
  destruct (DBValidator.field s) as [[v|] s1]; reflexivity.
Qed.

(** Once resolved, the query-set is read from its entry on every later
    instance that keeps the entries. *)
Lemma dbset_again (s s1 s2 : DBValidator.t) (rows : DBSet) :
  DBValidator.dbset s = (Some rows, s1) ->
  DBValidator.kept s1 s2 ->
  DBValidator.dbset s2 = (Some rows, s2).
Proof.
  intros Hrun Hkept.
  pose proof (access_dbset s) as Hs. rewrite Hrun in Hs. cbn [fst snd option_map] in Hs.
  destruct (access_fills _ _ _ _ Hs) as [_ Hslot].
  specialize (Hslot _ eq_refl). apply Hkept in Hslot.
  apply access_cached in Hslot. rewrite access_dbset in Hslot.
  destruct (DBValidator.dbset s2) as [[v|] s3]; cbn [fst snd option_map] in Hslot; congruence.
Qed.

Lemma field_again (s s1 s2 : DBValidator.t) (f : Field) :
  DBValidator.field s = (Some f, s1) ->
  DBValidator.kept s1 s2 ->
  DBValidator.field s2 = (Some f, s2).
Proof.
  intros Hrun Hkept.
  pose proof (access_field s) as Hs. rewrite Hrun in Hs. cbn [fst snd option_map] in Hs.
  destruct (access_fills _ _ _ _ Hs) as [_ Hslot].
  specialize (Hslot _ eq_refl). apply Hkept in Hslot.
  apply access_cached in Hslot. rewrite access_field in Hslot.
  destruct (DBValidator.field s2) as [[v|] s3]; cbn [fst snd option_map] in Hslot; congruence.
Qed.

Lemma field_kept (s s1 : DBValidator.t) (r : option Field) :
  DBValidator.field s = (r, s1) -> DBValidator.kept s s1.
Proof.
  intros Hrun. pose proof (access_field s) as Hs. rewrite Hrun in Hs. cbn [fst snd option_map] in Hs.
  exact (proj1 (access_fills _ _ _ _ Hs)).
Qed.

Lemma dbset_raises_again (s s1 : DBValidator.t) :
  DBValidator.dbset s = (None, s1) -> DBValidator.dbset s1 = (None, s1).
Proof.
  intros Hrun. pose proof (access_dbset s) as Hs. rewrite Hrun in Hs. cbn [fst snd option_map] in Hs.
  apply access_raises_again in Hs. rewrite access_dbset in Hs.
  destruct (DBValidator.dbset s1) as [[v|] s2]; cbn [fst snd option_map] in Hs; congruence.
Qed.

Lemma field_raises_again (s s1 : DBValidator.t) :
  DBValidator.field s = (None, s1) -> DBValidator.field s1 = (None, s1).
Proof.
  intros Hrun. pose proof (access_field s) as Hs. rewrite Hrun in Hs. cbn [fst snd option_map] in Hs.
  apply access_raises_again in Hs. rewrite access_field in Hs.
  destruct (DBValidator.field s1) as [[v|] s2]; cbn [fst snd option_map] in Hs; congruence.
Qed.

(** Checking the same value again, on the instance the first check
    leaves, gives the same result and leaves the instance as it is. *)
Theorem notInDB_check_twice (s s' : DBValidator.t) (current : namespace)
    (v : pyval) (r : option (pyval * option string)) :
  notInDB.__call__ current v s = (r, s') ->
  notInDB.__call__ current v s' = (r, s').
Proof.
  unfold notInDB.__call__, bind.
  destruct (DBValidator.dbset s) as [[rows|] s1] eqn:Hset.
  - destruct (DBValidator.field s1) as [[f|] s2] eqn:Hfield.
    + intros Hrun.
      assert (Hs' : s' = s2).
      { destruct (first _) as [row|]; [destruct (negb _)|];
          unfold attr, ret in Hrun; simpl in Hrun; congruence. }
      subst s'.
      rewrite (dbset_again s s1 s2 rows Hset (field_kept _ _ _ Hfield)).
      rewrite (field_again s1 s2 s2 f Hfield (kept_refl s2)).
      exact Hrun.
    + intros Hrun. injection Hrun as <- <-.
      rewrite (dbset_again s s1 s2 rows Hset (field_kept _ _ _ Hfield)).
      rewrite (field_raises_again s1 s2 Hfield). reflexivity.
  - intros Hrun. injection Hrun as <- <-.
    rewrite (dbset_raises_again s s1 Hset). reflexivity.
Qed.
End RecordChecks.

Section RecordChecksFurther.
Context {R : PyRuntime} {T : I18n}.
Import dal.

Lemma count_where (rows : DBSet) (q : Query) :
  (count (where_ rows q) =? 0)%nat = false <->
  exists row, In row rows /\ satisfies q row = true.
Proof.
  unfold count, where_. induction rows as [|r rows IH]; simpl.
  - split; [discriminate | intros [row [[] _]]].
  - destruct (satisfies q r) eqn:Hr; simpl.
    + split; [|reflexivity]. intros _. exists r. split; [left; reflexivity | exact Hr].
    + rewrite IH. split.
      * intros [row [Hin Hrow]]. exists row. split; [right; exact Hin | exact Hrow].
      * intros [row [[<- | Hin] Hrow]]; [congruence|].
        exists row. split; assumption.
Qed.

Lemma count_where_find (rows : DBSet) (q : Query) :
  (count (where_ rows q) =? 0)%nat =
  match find (satisfies q) rows with Some _ => false | None => true end.
Proof.
  unfold count, where_. induction rows as [|r rows IH]; simpl; [reflexivity|].
  destruct (satisfies q r); simpl; [reflexivity | exact IH].
Qed.

(** What the single mode answers once the query-set and the field are
    there. *)
Lemma inDB_single_run (s : inDB.t) (b1 b2 : DBValidator.t) (v : pyval)
    (rows : DBSet) (f : Field) :
  inDB.multiple s = false ->
  DBValidator.dbset (inDB.base s) = (Some rows, b1) ->
  DBValidator.field b1 = (Some f, b2) ->
  fst (inDB.__call__ v s) =
  Some (v,
        if (count (where_ rows (Equals f v)) =? 0)%nat
        then Some (translate (DBValidator.message (inDB.base s)))
        else None).
Proof.
  intros Hm Hset Hfield.
  pose proof (dbset_message _ _ _ Hset) as Hm1.
  pose proof (field_message _ _ _ Hfield) as Hm2.
  unfold inDB.__call__, bind, attr, inDB.inherited, ret. simpl.
  rewrite Hm, Hset. simpl. rewrite Hfield. simpl.
  destruct (count (where_ rows (Equals f v)) =? 0)%nat; simpl; [|reflexivity].
  rewrite Hm2, Hm1. reflexivity.
Qed.

(** In single mode, once the query-set and the field are resolved, the
    check passes exactly when some row of the query-set has the field
    equal to the value, and fails with the translated message when none
    has. *)
Theorem inDB_single_mode (s : inDB.t) (b1 b2 : DBValidator.t) (v : pyval)
    (rows : DBSet) (f : Field) :
  inDB.multiple s = false ->
  DBValidator.dbset (inDB.base s) = (Some rows, b1) ->
  DBValidator.field b1 = (Some f, b2) ->
  (fst (inDB.__call__ v s) = Some (v, None) <->
   exists row, In row rows /\ satisfies (Equals f v) row = true) /\
  ((forall row, In row rows -> satisfies (Equals f v) row = false) ->
   fst (inDB.__call__ v s)
   = Some (v, Some (translate (DBValidator.message (inDB.base s))))).
Proof.
  intros Hm Hset Hfield.
  rewrite (inDB_single_run s b1 b2 v rows f Hm Hset Hfield).
  pose proof (count_where rows (Equals f v)) as Hcount.
  destruct (count (where_ rows (Equals f v)) =? 0)%nat.
  - split.
    + split; [discriminate|]. intros H. apply Hcount in H. discriminate.
    + intros _. reflexivity.
  - split.
    + split; [intros _; apply Hcount; reflexivity | reflexivity].
    + intros Hnone. destruct (proj1 Hcount eq_refl) as [row [Hin Hrow]].
      rewrite (Hnone row Hin) in Hrow. discriminate.
Qed.

(** With no record under edit ([current] has no
    [_dbvalidation_record_id_]) and rows whose ids are not [None], the
    absence check passes exactly when no row of the query-set has the
    field equal to the value. *)
Theorem notInDB_without_record_id (s s1 s2 : DBValidator.t) (current : namespace)
    (v : pyval) (rows : DBSet) (f : Field) :
  DBValidator.dbset s = (Some rows, s1) ->
  DBValidator.field s1 = (Some f, s2) ->
  assoc "_dbvalidation_record_id_" current = None ->
  (forall row, In row rows -> id row <> PNone) ->
  (fst (notInDB.__call__ current v s) = Some (v, None) <->
   forall row, In row rows -> satisfies (Equals f v) row = false) /\
  ((exists row, In row rows /\ satisfies (Equals f v) row = true) ->
   fst (notInDB.__call__ current v s)
   = Some (v, Some (translate (DBValidator.message s)))).
Proof.
  intros Hset Hfield Hcur Hids.
  rewrite (notInDB_call_run s s1 s2 current v rows f Hset Hfield).
  unfold getattr. rewrite Hcur.
  pose proof (find_none_iff rows (Equals f v)) as Hnone.
  destruct (find (satisfies (Equals f v)) rows) as [row|] eqn:Hfind.
  - apply find_some in Hfind. destruct Hfind as [Hin Hrow].
    assert (Hid : py_eq (id row) PNone = false).
    { destruct (py_eq (id row) PNone) eqn:E; [|reflexivity].
      apply py_eq_none in E. exfalso. exact (Hids row Hin E). }
    rewrite Hid. split.
    + split; [discriminate|]. intros H. rewrite (H row Hin) in Hrow. discriminate.
    + intros _. reflexivity.
  - split.
    + split; [intros _; apply Hnone; reflexivity | reflexivity].
    + intros [row [Hin Hrow]]. rewrite (proj1 Hnone eq_refl row Hin) in Hrow.
      discriminate.
Qed.

(** With no record under edit the two checks are complementary: on the
    same query-set and field, the existence check passes exactly when
    the absence check fails. *)
Theorem inDB_notInDB_complementary (s : inDB.t) (b1 b2 : DBValidator.t)
    (current : namespace) (v : pyval) (rows : DBSet) (f : Field) :
  inDB.multiple s = false ->
  DBValidator.dbset (inDB.base s) = (Some rows, b1) ->
  DBValidator.field b1 = (Some f, b2) ->
  assoc "_dbvalidation_record_id_" current = None ->
  (forall row, In row rows -> id row <> PNone) ->
  (fst (inDB.__call__ v s) = Some (v, None) <->
   fst (notInDB.__call__ current v (inDB.base s))
   = Some (v, Some (translate (DBValidator.message (inDB.base s))))).
Proof.
  intros Hm Hset Hfield Hcur Hids.
  rewrite (inDB_single_run s b1 b2 v rows f Hm Hset Hfield).
  rewrite (notInDB_call_run (inDB.base s) b1 b2 current v rows f Hset Hfield).
  unfold getattr. rewrite Hcur, count_where_find.
  destruct (find (satisfies (Equals f v)) rows) as [row|] eqn:Hfind.
  - apply find_some in Hfind. destruct Hfind as [Hin _].
    assert (Hid : py_eq (id row) PNone = false).
    { destruct (py_eq (id row) PNone) eqn:E; [|reflexivity].
      apply py_eq_none in E. exfalso. exact (Hids row Hin E). }
    rewrite Hid. split; reflexivity.
  - split; discriminate.
Qed.
End RecordChecksFurther.

Section RecordOptions.
Context {R : PyRuntime} {T : I18n}.
Import dal.

(** An [orderby] that is not callable is not used: the rows fetched, the
    options and the checks are those of a validator without [orderby]. *)
Theorem inDB_orderby_value_ignored (db : DAL) (tablename : string)
    (fieldname : option string) (dbset : option (DAL -> DBSet))
    (label_field : option string) (multiple : bool) (message : string)
    (o : Ordering) :
  let ordered :=
    inDB.__init__ db tablename fieldname dbset label_field multiple
      (inDB.OrderValue o) message in
  let plain :=
    inDB.__init__ db tablename fieldname dbset label_field multiple
      inDB.NoOrder message in
  fst (inDB._get_rows ordered) = fst (inDB._get_rows plain) /\
  fst (inDB.options ordered) = fst (inDB.options plain) /\
  forall v, fst (inDB.__call__ v ordered) = fst (inDB.__call__ v plain).
Proof.
  intros ordered plain. subst ordered plain.
  unfold inDB.__init__.
  set (b := DBValidator.__init__ db tablename fieldname dbset message).
  assert (Hrows : forall A (k : list pydict -> M inDB.t A),
             (forall l s1 s2,
                inDB.base s1 = inDB.base s2 ->
                inDB.label_field s1 = inDB.label_field s2 ->
                inDB.multiple s1 = inDB.multiple s2 ->
                fst (k l s1) = fst (k l s2)) ->
             fst (bind inDB._get_rows k
                    (inDB.mk b label_field multiple (inDB.OrderValue o) None))
             = fst (bind inDB._get_rows k
                      (inDB.mk b label_field multiple inDB.NoOrder None))).
  { intros A k Hk.
    unfold inDB._get_rows, inDB.sorting, inDB.inherited, cachedprop, attr, ret, bind.
    simpl. destruct (DBValidator.dbset b) as [[rows|] b1]; simpl; [|reflexivity].
    apply Hk; reflexivity. }
  split; [|split].
  - specialize (Hrows _ (fun l => ret l)). unfold bind, ret in Hrows.
    assert (Hsame : forall s, fst (let (o0, s0) := inDB._get_rows s in
                                   match o0 with Some a => (Some a, s0) | None => (None, s0) end)
                              = fst (inDB._get_rows s)).
    { intros s. destruct (inDB._get_rows s) as [[l|] s0]; reflexivity. }
    rewrite <- !Hsame. apply Hrows. reflexivity.
  - unfold inDB.options.
    apply Hrows. intros l s1 s2 Hb Hl Hm.
    unfold bind, attr, lift, inDB.inherited. simpl. rewrite Hl.
    destruct (inDB.label_field s2); simpl; [reflexivity|]. rewrite Hb.
    destruct (DAL_getitem _ _) as [tb|]; simpl; [|reflexivity].
    destruct (_format tb) as [fmt|]; [destruct (negb _)|]; reflexivity.
  - intros v. unfold inDB.__call__, bind at 1 3, attr at 1 3. simpl.
    destruct multiple.
    + apply Hrows. intros l s1 s2 Hb Hl Hm.
      unfold bind, attr, lift, inDB.inherited, ret. simpl.
      destruct (inDB.comprehension _ l) as [records|]; simpl; [|reflexivity].
      destruct (negb _); simpl; [reflexivity|]. rewrite Hb. reflexivity.
    + unfold bind, attr, inDB.inherited, ret. simpl.
      destruct (DBValidator.dbset b) as [[rows|] b1]; simpl; [|reflexivity].
      destruct (DBValidator.field b1) as [[f|] b2]; simpl; [|reflexivity].
      destruct (negb _); reflexivity.
Qed.
End RecordOptions.

Section RecordOptionsFurther.
Context {R : PyRuntime} {T : I18n}.
Import dal.

Lemma as_dict_id (r : Row) : dict_getitem (as_dict r) (PStr "id") = Some (id r).
Proof. reflexivity. Qed.

(** A comprehension over fetched rows that pairs the [r['id']] of each
    row with something gives the ids of the rows, in order. *)
Lemma comprehension_ids (g : pydict -> option pyval) (rows : list Row)
    (items : list (pyval * pyval)) :
  inDB.comprehension
    (fun r => match dict_getitem r (PStr "id"), g r with
              | Some i, Some l => Some (i, l)
              | _, _ => raise
              end) (as_list rows) = Some items ->
  map fst items = map id rows.
Proof.
  revert items. induction rows as [|r rows IH]; intros items H; simpl in H.
  - injection H as <-. reflexivity.
  - destruct (g (as_dict r)) as [l|]; [|discriminate].
    destruct (inDB.comprehension _ (as_list rows)) as [items'|] eqn:E;
      simpl in H; [|discriminate].
    injection H as <-. simpl. f_equal. apply IH. reflexivity.
Qed.

Lemma comprehension_ext {A B : Type} (f g : A -> option B) (l : list A) :
  (forall x, f x = g x) -> inDB.comprehension f l = inDB.comprehension g l.
Proof.
  intros H. induction l as [|x l IH]; simpl; [reflexivity|].
  rewrite (H x), IH. reflexivity.
Qed.

Lemma options_keys (s s' : inDB.t) (items : list (pyval * pyval)) :
  inDB.options s = (Some items, s') ->
  exists rows,
    fst (inDB._get_rows s) = Some (as_list rows) /\
    map fst items = map id rows.
Proof.
  unfold inDB.options, bind at 1.
  destruct (inDB._get_rows s) as [[dicts|] s1] eqn:Hrows; [|discriminate].
  destruct (_get_rows_as_list s s1 dicts Hrows) as [_ [rows ->]].
  intros Hopt. exists rows. split; [reflexivity|].
  unfold bind, attr, lift, inDB.inherited in Hopt. simpl in Hopt.
  assert (Hplain : forall s0,
             (inDB.comprehension
                (fun r => option_map (fun i => (i, i)) (dict_getitem r (PStr "id")))
                (as_list rows), s0) = (Some items, s') ->
             map fst items = map id rows).
  { intros s0 H. injection H as H _.
    apply (comprehension_ids (fun r => dict_getitem r (PStr "id"))).
    rewrite <- H. apply comprehension_ext. intros d.
    destruct (dict_getitem d (PStr "id")); reflexivity. }
  destruct (inDB.label_field s1) as [label|].
  - injection Hopt as Hopt _.
    apply (comprehension_ids
             (fun r => option_map (fun l => PStr (py_str l)) (dict_getitem r (PStr label)))).
    rewrite <- Hopt. apply comprehension_ext. intros d.
    destruct (dict_getitem d (PStr "id")); [|reflexivity].
    destruct (dict_getitem d (PStr label)); reflexivity.
  - destruct (DAL_getitem _ _) as [tb|]; simpl in Hopt; [|discriminate].
    destruct (_format tb) as [fmt|]; [|exact (Hplain _ Hopt)].
    destruct (negb (fmt =? "")%string); [|exact (Hplain _ Hopt)].
    injection Hopt as Hopt _.
    apply (comprehension_ids (fun r => option_map PStr (py_format fmt r))).
    rewrite <- Hopt. apply comprehension_ext. intros d.
    destruct (dict_getitem d (PStr "id")); [|reflexivity].
    destruct (py_format fmt d); reflexivity.
Qed.

(** The options offered are, in order, the ids of the rows fetched,
    whichever label they carry. *)
Theorem inDB_options_ids (s s' : inDB.t) (items : list (pyval * pyval)) :
  inDB.options s = (Some items, s') ->
  exists rows,
    fst (inDB._get_rows s) = Some (as_list rows) /\
    map fst items = map id rows.
Proof. apply options_keys. Qed.

Lemma as_list_ids (l1 l2 : list Row) :
  as_list l1 = as_list l2 -> map id l1 = map id l2.
Proof.
  revert l2. induction l1 as [|r1 l1 IH]; intros [|r2 l2] H; simpl in H;
    try discriminate; [reflexivity|].
  injection H as Hid _ Hrest. simpl. f_equal; [exact Hid | apply IH, Hrest].
Qed.

(** Without a callable [orderby] the rows fetched are those of the
    query-set, as it has them. *)
Lemma _get_rows_plain (s : inDB.t) (b1 : DBValidator.t) (rows : DBSet) :
  inDB.dict_sorting s = None ->
  (forall g, inDB.orderby s <> inDB.OrderCallable g) ->
  DBValidator.dbset (inDB.base s) = (Some rows, b1) ->
  fst (inDB._get_rows s) = Some (as_list rows).
Proof.
  intros Hsort Horder Hset.
  unfold inDB._get_rows, inDB.sorting, inDB.inherited, cachedprop, attr, ret, bind.
  simpl. rewrite Hset. simpl. rewrite Hsort.
  destruct (inDB.orderby s) as [ | o | g]; simpl; try reflexivity.
  exfalso. exact (Horder g eq_refl).
Qed.

(** When the field is [id] and [orderby] is not callable, every id that
    [options] offers passes the single-mode check. *)
Theorem inDB_options_pass_the_check (s s' : inDB.t) (b1 b2 : DBValidator.t)
    (rows : DBSet) (f : Field) (items : list (pyval * pyval)) :
  inDB.multiple s = false ->
  inDB.dict_sorting s = None ->
  (forall g, inDB.orderby s <> inDB.OrderCallable g) ->
  DBValidator.dbset (inDB.base s) = (Some rows, b1) ->
  DBValidator.field b1 = (Some f, b2) ->
  name f = "id" ->
  inDB.options s = (Some items, s') ->
  forall i label, In (i, label) items -> fst (inDB.__call__ i s) = Some (i, None).
Proof.
  intros Hm Hsort Horder Hset Hfield Hname Hopt i label Hin.
  destruct (options_keys s s' items Hopt) as [rows' [Hrows Hkeys]].
  rewrite (_get_rows_plain s b1 rows Hsort Horder Hset) in Hrows.
  injection Hrows as Hrows. apply as_list_ids in Hrows.
  assert (Hi : In i (map id rows)).
  { rewrite Hrows, <- Hkeys. apply (in_map fst _ _ Hin). }
  apply in_map_iff in Hi. destruct Hi as [row [Hid Hrow]].
  rewrite (inDB_single_run s b1 b2 i rows f Hm Hset Hfield).
  assert (Hc : (count (where_ rows (Equals f i)) =? 0)%nat = false).
  { apply count_where. exists row. split; [exact Hrow|].
    unfold satisfies, Row_getitem. rewrite Hname. simpl.
    rewrite Hid. apply py_eq_refl. }
  rewrite Hc. reflexivity.
Qed.

(** In multiple mode with no row fetched, the check returns: the empty
    list passes and every other value fails with the message. *)
Theorem inDB_multiple_empty_store (s s' : inDB.t) (v : pyval) :
  inDB.multiple s = true ->
  inDB._get_rows s = (Some [], s') ->
  (v = PList [] -> fst (inDB.__call__ v s) = Some (PList [], None)) /\
  (v <> PList [] ->
   fst (inDB.__call__ v s)
   = Some (v, Some (translate (DBValidator.message (inDB.base s'))))).
Proof.
  intros Hm Hrows.
  unfold inDB.__call__, bind, attr, lift, inDB.inherited, ret. simpl.
  rewrite Hm, Hrows. simpl. split.
  - intros ->. reflexivity.
  - intros Hne. destruct v as [ | b | z | str | [|x l] | l]; simpl; try reflexivity.
    congruence.
Qed.
End RecordOptionsFurther.

(** The second check of ["nail"] answers as the first. *)
Lemma notInDB_check_twice_witness :
  fst (notInDB.__call__ (T := untranslated) Examples.editing_2 (PStr "nail")
         (snd (notInDB.__call__ (T := untranslated) Examples.editing_2 (PStr "nail")
                 Examples.unique_name)))
  = Some (PStr "nail", None).
Proof.
  rewrite (notInDB_check_twice (T := untranslated) Examples.unique_name _
             Examples.editing_2 (PStr "nail") _ (surjective_pairing _)).
  reflexivity.
Defined.

(** [inDB(db, "things")(2)]: there is a row with id 2. *)
Lemma inDB_single_mode_witness :
  fst (inDB.__call__ (T := untranslated) (PInt 2) Examples.one_of_things)
  = Some (PInt 2, None).
Proof.
  apply (proj1 (inDB_single_mode (T := untranslated) Examples.one_of_things _ _
                  (PInt 2) _ _ eq_refl eq_refl eq_refl)).
  exists {| dal.id := PInt 2; dal.columns := [("name", PStr "nail")] |}.
  split; [right; left; reflexivity | reflexivity].
Defined.

(** With nothing under edit, the name of an existing record is taken. *)
Lemma notInDB_without_record_id_witness :
  fst (notInDB.__call__ (T := untranslated) [] (PStr "nail") Examples.unique_name)
  = Some (PStr "nail", Some "Already taken").
Proof.
  refine (proj2 (notInDB_without_record_id (T := untranslated) Examples.unique_name
                   _ _ [] (PStr "nail") _ _ eq_refl eq_refl eq_refl _) _).
  - intros row [<-|[<-|[]]]; discriminate.
  - exists {| dal.id := PInt 2; dal.columns := [("name", PStr "nail")] |}.
    split; [right; left; reflexivity | reflexivity].
Defined.

(** By name, ["nail"] exists, so as a new name it is taken. *)
Lemma inDB_notInDB_complementary_witness :
  fst (notInDB.__call__ (T := untranslated) [] (PStr "nail")
         (inDB.base Examples.a_thing_by_name))
  = Some (PStr "nail", Some "Invalid value").
Proof.
  refine (proj1 (inDB_notInDB_complementary (T := untranslated)
                   Examples.a_thing_by_name _ _ [] (PStr "nail") _ _
                   eq_refl eq_refl eq_refl eq_refl _) eq_refl).
  intros row [<-|[<-|[]]]; discriminate.
Defined.

(** The options of [inDB(db, "things", label_field="name")] carry the ids
    1 and 2. *)
Lemma inDB_options_ids_witness :
  fst (inDB.options (R := CPython) Examples.labelled_things)
  = Some [(PInt 1, PStr "hammer"); (PInt 2, PStr "nail")] /\
  exists rows,
    fst (inDB._get_rows Examples.labelled_things) = Some (dal.as_list rows) /\
    map fst [(PInt 1, PStr "hammer"); (PInt 2, PStr "nail")] = map dal.id rows.
Proof.
  split; [reflexivity|].
  exact (inDB_options_ids (R := CPython) Examples.labelled_things _
           [(PInt 1, PStr "hammer"); (PInt 2, PStr "nail")] eq_refl).
Defined.

(** The id 2 offered by [inDB(db, "things")] passes its check. *)
Lemma inDB_options_pass_the_check_witness :
  fst (inDB.__call__ (T := untranslated) (PInt 2) Examples.one_of_things)
  = Some (PInt 2, None).
Proof.
  refine (inDB_options_pass_the_check (R := CPython) (T := untranslated)
            Examples.one_of_things _ _ _ _ _
            [(PInt 1, PInt 1); (PInt 2, PInt 2)]
            eq_refl eq_refl _ eq_refl eq_refl eq_refl eq_refl
            (PInt 2) (PInt 2) (or_intror (or_introl eq_refl))).
  intros g. discriminate.
Defined.

(** By another field the ids offered need not pass: [options] offers the
    ids whatever the field that [__call__] compares. *)
Example inDB_options_by_name :
  fst (inDB.options (R := CPython) Examples.a_thing_by_name)
  = Some [(PInt 1, PInt 1); (PInt 2, PInt 2)] /\
  fst (inDB.__call__ (T := untranslated) (PInt 1) Examples.a_thing_by_name)
  = Some (PInt 1, Some "Invalid value").
Proof. split; reflexivity. Qed.

(** On an empty table the multiple mode returns. *)
Lemma inDB_multiple_empty_store_witness :
  fst (inDB.__call__ (T := untranslated) (PList []) Examples.of_no_things)
  = Some (PList [], None) /\
  fst (inDB.__call__ (T := untranslated) (PList [PInt 1]) Examples.of_no_things)
  = Some (PList [PInt 1], Some "Invalid value").
Proof.
  split.
  - exact (proj1 (inDB_multiple_empty_store (T := untranslated)
                    Examples.of_no_things _ (PList []) eq_refl eq_refl) eq_refl).
  - refine (proj2 (inDB_multiple_empty_store (T := untranslated)
                     Examples.of_no_things _ (PList [PInt 1]) eq_refl eq_refl) _).
    discriminate.
Defined.

(** On the table of two rows the multiple mode raises. *)
Lemma inDB_multiple_raises_witness :
  fst (inDB.__call__ (T := untranslated) (PList [PInt 1; PInt 2]) Examples.some_things)
  = None.
Proof.
  refine (inDB_multiple_raises (T := untranslated) Examples.some_things _ _
            (PList [PInt 1; PInt 2]) eq_refl eq_refl _).
  discriminate.
Defined.
